(** * deploy_tui: the validation runner of [scripts/deploy/deploy_tui.py]

    A shallow embedding of [DeploymentTUI.run_validation]: the environment
    it builds for the child, the command it launches, the relay of the
    child's two output streams into the Textual log, the exit-code report
    and the exception handlers.

    Python values are modelled as follows.
    - [str]: the list of its Unicode code points.
    - [bytes]: a list of [Byte.byte].
    - [dict] of strings: a [gmap str str], held in a store of objects so
      that [os.environ] and its copy are two objects.
    - the Textual [Log] widget: the texts that [write_line] was called
      with since the last [clear], one entry for each call; [shown] gives
      the lines that the widget makes of them.
    - exceptions: an outcome [Raise e] threaded through a state monad. *)

From Stdlib Require Import ZArith NArith List Bool Lia Ascii String Decimal.
From Stdlib Require Import Strings.Byte.
From stdpp Require Import base option list gmap.

Import ListNotations.
Local Open Scope N_scope.

(** ** Python [str] and [bytes] *)

Definition codepoint := N.
Definition str := list N.
Definition bytes := list byte.

(** A source literal made of ASCII characters only. *)
Definition lit (s : string) : str := map N_of_ascii (list_ascii_of_string s).

Definition LF : codepoint := 10.
Definition CR : codepoint := 13.
Definition SEMICOLON : codepoint := 59.
Definition DOLLAR : codepoint := 36.
Definition PERCENT : codepoint := 37.
Definition REPLACEMENT_CHARACTER : codepoint := 0xFFFD.

Definition str_eqb (a b : str) : bool := bool_decide (a = b).

(** [c in s] for a one-character [c]. *)
Definition has_char (c : codepoint) (s : str) : bool := existsb (N.eqb c) s.

(** [s.startswith(pre)] *)
Fixpoint startswith (s pre : str) {struct pre} : bool :=
  match pre, s with
  | [], _ => true
  | _ :: _, [] => false
  | p :: pre', c :: s' => if N.eqb p c then startswith s' pre' else false
  end.

(** [sub in s]: [sub] occurs in [s] at some offset. *)
Fixpoint contains (sub s : str) : bool :=
  if startswith s sub then true
  else match s with
       | [] => false
       | _ :: s' => contains sub s'
       end.


(** [s.rstrip(chars)]: drop the longest suffix made of characters of
    [chars]. *)
Fixpoint rstrip (chars s : str) : str :=
  match s with
  | [] => []
  | c :: s' =>
      match rstrip chars s' with
      | [] => if has_char c chars then [] else [c]
      | t => c :: t
      end
  end.

(** [s.lstrip(chars)] *)
Fixpoint lstrip (chars s : str) : str :=
  match s with
  | [] => []
  | c :: s' => if has_char c chars then lstrip chars s' else s
  end.

(** The characters for which [str.isspace] holds; [str.strip()] without an
    argument removes exactly these. *)
Definition whitespace : str :=
  [9; 10; 11; 12; 13; 28; 29; 30; 31; 32; 133; 160; 5760;
   8192; 8193; 8194; 8195; 8196; 8197; 8198; 8199; 8200; 8201; 8202;
   8232; 8233; 8239; 8287; 12288].

(** [s.strip()] *)
Definition strip (s : str) : str := rstrip whitespace (lstrip whitespace s).

(** [s.split(sep)] for a one-character separator: the pieces between the
    separators, empty pieces included. *)
Fixpoint split (sep : codepoint) (s : str) : list str :=
  match s with
  | [] => [[]]
  | c :: s' =>
      if N.eqb c sep then [] :: split sep s'
      else match split sep s' with
           | [] => [[c]]
           | piece :: pieces => (c :: piece) :: pieces
           end
  end.

(** A truth test on a string or on bytes: the empty one is false. *)
Definition truthy {A} (l : list A) : bool :=
  match l with [] => false | _ => true end.

(** [str(n)] for an [int]: the decimal digits, with a sign for negative
    numbers. *)
Fixpoint digits (u : Decimal.uint) : str :=
  match u with
  | Nil => []
  | D0 u => 48 :: digits u
  | D1 u => 49 :: digits u
  | D2 u => 50 :: digits u
  | D3 u => 51 :: digits u
  | D4 u => 52 :: digits u
  | D5 u => 53 :: digits u
  | D6 u => 54 :: digits u
  | D7 u => 55 :: digits u
  | D8 u => 56 :: digits u
  | D9 u => 57 :: digits u
  end.

Definition str_of_int (z : Z) : str :=
  match Z.to_int z with
  | Decimal.Pos u => digits u
  | Decimal.Neg u => 45 :: digits u
  end.

(** ** Exceptions

    The classes the handlers of [run_validation] tell apart.  An exception
    is filed under the nearest of them in Python's hierarchy:
    [FileNotFoundError] and [PermissionError] are [OSError]s,
    [UnicodeDecodeError] is a [ValueError], [subprocess.TimeoutExpired] and
    everything else ([KeyError], [TypeError], ...) are plain
    [Exception]s. *)

Inductive exc_class :=
  | FileNotFoundError
  | PermissionError
  | OSError
  | RuntimeError
  | UnicodeDecodeError
  | ValueError
  | TimeoutExpired
  | Exception.

Definition exc_class_eqb (a b : exc_class) : bool :=
  match a, b with
  | FileNotFoundError, FileNotFoundError
  | PermissionError, PermissionError
  | OSError, OSError
  | RuntimeError, RuntimeError
  | UnicodeDecodeError, UnicodeDecodeError
  | ValueError, ValueError
  | TimeoutExpired, TimeoutExpired
  | Exception, Exception => true
  | _, _ => false
  end.

(** [issubclass(a, b)] *)
Definition issubclass (a b : exc_class) : bool :=
  match a, b with
  | _, Exception => true
  | (FileNotFoundError | PermissionError), OSError => true
  | UnicodeDecodeError, ValueError => true
  | _, _ => exc_class_eqb a b
  end.

(** An exception object: its class, [type(e).__name__], [str(e)] and the
    text [traceback.format_exc()] gives while it is being handled. *)
Record exn := mk_exn {
  exc_type : exc_class;
  exc_name : str;
  exc_message : str;
  exc_traceback : str;
}.

Definition isinstance (e : exn) (c : exc_class) : bool :=
  issubclass (exc_type e) c.

(** How a call ends: with a value or with an exception. *)
Inductive outcome (A : Type) :=
  | Return (a : A)
  | Raise (e : exn).
Arguments Return {A} a.
Arguments Raise {A} e.

(** ** Text codecs

    [bytes.decode(encoding, errors)] runs the codec's decoder over the
    input; at bytes that are not a well-formed sequence the decoder hands
    the offending run to the error handler named by [errors].  A codec is
    given by what its decoder does at the head of the remaining input. *)

Inductive decode_step :=
  | Scalar (c : codepoint) (used : nat)   (* a well-formed sequence *)
  | Invalid (used : nat).                 (* a malformed run *)

Record codec := mk_codec {
  (** one decoding step on a non-empty input; [used] counts the bytes
      taken and is read as one when it is zero *)
  next : bytes -> decode_step;
  (** [str(e)] and the traceback text of the [UnicodeDecodeError] that
      the strict handler raises for an input *)
  error_message : bytes -> str;
  error_traceback : bytes -> str;
}.

Definition decode_error (c : codec) (data : bytes) : exn :=
  {| exc_type := UnicodeDecodeError;
     exc_name := lit "UnicodeDecodeError";
     exc_message := error_message c data;
     exc_traceback := error_traceback c data |}.

Inductive error_mode := strict | ignore | replace.

(** The decoder loop. [skip] counts the bytes of the current sequence that
    are still to be passed over. [None] stands for the error handler
    raising. *)
Fixpoint decode_loop (c : codec) (errors : error_mode) (skip : nat)
    (data : bytes) : option str :=
  match data with
  | [] => Some []
  | _ :: rest =>
      match skip with
      | S k => decode_loop c errors k rest
      | O =>
          match next c data with
          | Scalar cp used => cons cp <$> decode_loop c errors (pred used) rest
          | Invalid used =>
              match errors with
              | strict => None
              | ignore => decode_loop c errors (pred used) rest
              | replace =>
                  cons REPLACEMENT_CHARACTER <$>
                    decode_loop c errors (pred used) rest
              end
          end
      end
  end.

(** [data.decode(encoding, errors=errors)] *)
Definition decode (c : codec) (errors : error_mode) (data : bytes)
    : outcome str :=
  match decode_loop c errors 0 data with
  | Some s => Return s
  | None => Raise (decode_error c data)
  end.

(** *** UTF-8

    The decoder of CPython: the well-formed sequences of the Unicode
    standard (no overlong forms, no surrogates, nothing above U+10FFFF);
    a malformed run is the longest prefix of a well-formed sequence, or one
    byte. *)

Module Utf8.

Definition continuation (b : N) : bool := (0x80 <=? b) && (b <=? 0xBF).

(** The range of the second byte depends on the first. *)
Definition second_ok (b0 b1 : N) : bool :=
  if b0 =? 0xE0 then (0xA0 <=? b1) && (b1 <=? 0xBF)
  else if b0 =? 0xED then (0x80 <=? b1) && (b1 <=? 0x9F)
  else if b0 =? 0xF0 then (0x90 <=? b1) && (b1 <=? 0xBF)
  else if b0 =? 0xF4 then (0x80 <=? b1) && (b1 <=? 0x8F)
  else continuation b1.

Definition payload (b : N) : N := N.land b 0x3F.

Definition step (data : bytes) : decode_step :=
  match map Byte.to_N (firstn 4 data) with
  | [] => Invalid 1
  | b0 :: tl =>
      if b0 <? 0x80 then Scalar b0 1
      else if b0 <? 0xC2 then Invalid 1
      else if b0 <? 0xE0 then
        match tl with
        | b1 :: _ =>
            if continuation b1
            then Scalar (N.lor (N.shiftl (N.land b0 0x1F) 6) (payload b1)) 2
            else Invalid 1
        | [] => Invalid 1
        end
      else if b0 <? 0xF0 then
        match tl with
        | b1 :: tl1 =>
            if negb (second_ok b0 b1) then Invalid 1
            else match tl1 with
                 | b2 :: _ =>
                     if continuation b2
                     then Scalar (N.lor (N.shiftl (N.land b0 0x0F) 12)
                                    (N.lor (N.shiftl (payload b1) 6)
                                       (payload b2))) 3
                     else Invalid 2
                 | [] => Invalid 2
                 end
        | [] => Invalid 1
        end
      else if b0 <? 0xF5 then
        match tl with
        | b1 :: tl1 =>
            if negb (second_ok b0 b1) then Invalid 1
            else match tl1 with
                 | b2 :: tl2 =>
                     if negb (continuation b2) then Invalid 2
                     else match tl2 with
                          | b3 :: _ =>
                              if continuation b3
                              then Scalar
                                     (N.lor (N.shiftl (N.land b0 0x07) 18)
                                        (N.lor (N.shiftl (payload b1) 12)
                                           (N.lor (N.shiftl (payload b2) 6)
                                              (payload b3)))) 4
                              else Invalid 3
                          | [] => Invalid 3
                          end
                 | [] => Invalid 2
                 end
        | [] => Invalid 1
        end
      else Invalid 1
  end.

(** The text of the error, without the byte, the position and the
    reason that CPython adds to it. *)
Definition message (data : bytes) : str :=
  lit "'utf-8' codec can't decode bytes".

Definition traceback (data : bytes) : str :=
  lit "Traceback (most recent call last):" ++ [LF] ++
  lit "UnicodeDecodeError: " ++ message data ++ [LF].

Definition utf8 : codec :=
  {| next := step; error_message := message; error_traceback := traceback |}.

(** The bytes of an ASCII literal. *)
Definition ascii_bytes (s : string) : bytes := list_byte_of_string s.

End Utf8.

(** ** The [constants] package

    [deploy_tui.py] imports its messages and settings from the package
    [constants], which is not among the sources.  The plain ones are taken
    as parameters, gathered in the record [constants]. *)

(** Modelled from the spec: the messages that the source fills in with
    [.format(x)] ([ERR_SCRIPT_NOT_FOUND], [MSG_VALIDATION_FAILED],
    [ERR_PERMISSION_HINT], [ERR_UNEXPECTED]) are missing; they are texts
    with one parameter (a path, an exit code, an error name), so a
    template is the text before and the text after its one field. *)
Record template := mk_template { before : str; after : str }.

(** [t.format(arg)] *)
Definition format (t : template) (arg : str) : str :=
  before t ++ arg ++ after t.

Record constants := mk_constants {
  MSG_RUNNING_VALIDATION : str;
  MSG_VALIDATION_SUCCESS : str;
  MSG_VALIDATION_WARNINGS : str;
  MSG_VALIDATION_FAILED : template;
  ERR_SCRIPT_NOT_FOUND : template;
  ERR_BASH_NOT_FOUND : str;
  ERR_BASH_HINT : str;
  ERR_PERMISSION_DENIED : str;
  ERR_PERMISSION_HINT : template;
  ERR_UNEXPECTED : template;
  SEPARATOR : str;
  VALIDATION_SCRIPT_PATH : str;
  BASH_FLAGS : list str;
  SUBPROCESS_ENCODING : codec;
}.

(** Modelled from the spec: [EXIT_CODE_SUCCESS] is missing; the exit code
    contract is 0 = success. *)
Definition EXIT_CODE_SUCCESS : Z := 0.

(** Modelled from the spec: [EXIT_CODE_WARNINGS] is missing; the exit code
    contract is 1 = warnings. *)
Definition EXIT_CODE_WARNINGS : Z := 1.

(** Modelled from the spec: [SUBPROCESS_ERROR_HANDLING] is missing; on a
    malformed byte sequence the implementation substitutes a replacement
    marker, which is the handler ["replace"]. *)
Definition SUBPROCESS_ERROR_HANDLING : error_mode := replace.

(** ** The host: what a run reads from its surroundings *)

Inductive stream := Stdout | Stderr.

(** One [await stream.readline()] that completed: the stream, and the
    bytes it gave or the exception it raised. *)
Definition arrival : Type := stream * outcome bytes.

(** A child process as the run sees it: the results of the [readline]
    calls in the order of their completion (each stream is at its end of
    input when the list has no more of its entries), and the result of
    [process.wait()]. *)
Record child := mk_child {
  arrivals : list arrival;
  wait : outcome Z;
}.

(** A process creation: the command line, and the working directory and
    environment when the call passes them. *)
Record spawn := mk_spawn {
  argv : list str;
  cwd : option str;
  env_passed : option (gmap str str);
}.

Record host := mk_host {
  sys_platform : str;                       (* sys.platform *)
  python_version : str;                     (* sys.version.split()[0] *)
  script_dir : str;                         (* Path(__file__).parent *)
  joinpath : str -> str -> str;             (* pathlib's [/] *)
  parent : str -> str;                      (* Path.parent *)
  exists_on_disk : str -> bool;             (* Path.exists, os.path.exists *)
  (* the substitution of [$name], [${name}] and [%name%] that
     os.path.expandvars does on a path that has a [$] or a [%] *)
  substitute_vars : gmap str str -> str -> str;
  (* subprocess.run(["which", "stdbuf"], ...): the return code of
     [which], or the exception of the call *)
  which_stdbuf : outcome Z;
  (* asyncio.create_subprocess_exec *)
  create_subprocess_exec : spawn -> outcome child;
}.

(** ** State and effects *)

Definition loc := nat.

(** [os.environ] is the object at this location. *)
Definition environ_loc : loc := 0%nat.

Record state := mk_state {
  objects : gmap loc (gmap str str);   (* the dictionaries *)
  log : list str;                      (* the write_line calls since clear *)
  spawned : list spawn;                (* the processes created so far *)
}.

Definition M (A : Type) : Type := state -> outcome A * state.

#[global] Instance M_ret : MRet M := fun A (a : A) s => (Return a, s).

#[global] Instance M_bind : MBind M := fun A B (f : A -> M B) (m : M A) s =>
  match m s with
  | (Return a, s') => f a s'
  | (Raise e, s') => (Raise e, s')
  end.

Definition raise {A} (e : exn) : M A := fun s => (Raise e, s).

(** The end of a call that the host decides. *)
Definition lift {A} (o : outcome A) : M A := fun s => (o, s).

(** [try: m  except Exception as e: h e], for a handler that re-raises
    what it does not handle. *)
Definition try_except {A} (m : M A) (h : exn -> M A) : M A := fun s =>
  match m s with
  | (Return a, s') => (Return a, s')
  | (Raise e, s') => h e s'
  end.

(** Run [m] and hand back how it ended. *)
Definition attempt {A} (m : M A) : M (outcome A) := fun s =>
  match m s with
  | (o, s') => (Return o, s')
  end.

Fixpoint for_each {A} (l : list A) (body : A -> M unit) : M unit :=
  match l with
  | [] => mret tt
  | x :: l' => body x ;; for_each l' body
  end.

(** [log.write_line(text)]: the call is recorded with its text.  The
    widget adds the lines of [text.splitlines()], none for the empty
    text; [shown] gives them. *)
Definition write_line (text : str) : M unit := fun s =>
  (Return tt, {| objects := objects s; log := log s ++ [text];
                 spawned := spawned s |}).

(** [log.clear()] *)
Definition clear : M unit := fun s =>
  (Return tt, {| objects := objects s; log := []; spawned := spawned s |}).

Definition dict_of (s : state) (l : loc) : gmap str str :=
  default ∅ (objects s !! l).

(** [d.copy()]: a new object with the entries of [d]. *)
Definition dict_copy (l : loc) : M loc := fun s =>
  let l' := fresh (dom (objects s)) in
  (Return l', {| objects := <[l' := dict_of s l]> (objects s); log := log s;
                 spawned := spawned s |}).

(** [d[key] = value] *)
Definition setitem (l : loc) (key value : str) : M unit := fun s =>
  (Return tt, {| objects := <[l := <[key := value]> (dict_of s l)]> (objects s);
                 log := log s; spawned := spawned s |}).

(** [key in d] *)
Definition has_key (l : loc) (key : str) : M bool := fun s =>
  (Return (bool_decide (is_Some (dict_of s l !! key))), s).

Definition KeyError (key : str) : exn :=
  {| exc_type := Exception; exc_name := lit "KeyError";
     exc_message := [39] ++ key ++ [39]; exc_traceback := lit "KeyError" |}.

(** [d[key]] *)
Definition getitem (l : loc) (key : str) : M str := fun s =>
  match dict_of s l !! key with
  | Some v => (Return v, s)
  | None => (Raise (KeyError key), s)
  end.

Definition record_spawn (p : spawn) : M unit := fun s =>
  (Return tt, {| objects := objects s; log := log s;
                 spawned := spawned s ++ [p] |}).

(** ** [DeploymentTUI.run_validation] *)

Section Program.

Context (K : constants) (H : host).

(** [ntpath.expandvars]: a path with neither [$] nor [%] comes back as
    it is; otherwise the references are substituted from [environ]. *)
Definition expand (environ : gmap str str) (path : str) : str :=
  if negb (has_char DOLLAR path) && negb (has_char PERCENT path)
  then path
  else substitute_vars H environ path.

(** [os.path.expandvars(path)], which reads [os.environ]. *)
Definition expandvars (path : str) : M str := fun s =>
  (Return (expand (dict_of s environ_loc) path), s).

(** The list [common_paths], whose last two entries are expanded when
    the list is built. *)
Definition common_paths_in (environ : gmap str str) : list str :=
  [ lit "C:\Program Files\Azure CLI\wbin";
    lit "C:\Program Files (x86)\Azure CLI\wbin";
    lit "C:\Program Files\nodejs";
    lit "C:\Program Files\Docker\Docker\resources\bin";
    expand environ
      (lit "%USERPROFILE%\AppData\Local\Programs\Microsoft VS Code\bin");
    expand environ (lit "%USERPROFILE%\.stripe") ].

Definition common_paths : M (list str) := fun s =>
  (Return (common_paths_in (dict_of s environ_loc)), s).

(** The body of the loop over [common_paths], after the expansion: the
    new value of [windows_path]. *)
Definition add_path (expanded_path windows_path : str) : str :=
  if exists_on_disk H expanded_path && negb (contains expanded_path windows_path)
  then expanded_path ++ [SEMICOLON] ++ windows_path
  else windows_path.

(** [for path in common_paths: ...] *)
Fixpoint add_common_paths (paths : list str) (windows_path : str) : M str :=
  match paths with
  | [] => mret windows_path
  | path :: rest =>
      expanded_path ← expandvars path;
      add_common_paths rest (add_path expanded_path windows_path)
  end.

Definition is_windows : bool := startswith (sys_platform H) (lit "win").

(** Lines 159-199: the environment of the child, built on a copy of
    [os.environ]; the result is the location of the copy. *)
Definition build_env : M loc :=
  env ← dict_copy environ_loc;
  setitem env (lit "PYTHONUNBUFFERED") (lit "1") ;;
  (if is_windows then
     setitem env (lit "PYTHONIOENCODING") (lit "utf-8") ;;
     in_env ← has_key env (lit "PATH");
     if (in_env : bool) then
       windows_path ← getitem env (lit "PATH");
       setitem env (lit "ORIGINAL_PATH") windows_path ;;
       paths ← common_paths;
       windows_path ← add_common_paths paths windows_path;
       setitem env (lit "PATH") windows_path
     else mret tt
   else mret tt) ;;
  mret env.

(** [subprocess.run(["which", "stdbuf"], capture_output=True, timeout=1,
    check=False)] *)
Definition subprocess_run_which : M Z :=
  record_spawn {| argv := [lit "which"; lit "stdbuf"]; cwd := None;
                  env_passed := None |} ;;
  lift (which_stdbuf H).

(** Lines 204-220: the command line. *)
Definition build_command : M (list str) :=
  let command := [lit "bash"] ++ BASH_FLAGS K ++ [VALIDATION_SCRIPT_PATH K] in
  if negb is_windows then
    try_except
      (subprocess_run_which ;;
       mret ([lit "stdbuf"; lit "-o0"; lit "-e0"] ++ command))
      (fun e =>
         if isinstance e TimeoutExpired || isinstance e FileNotFoundError
         then mret command
         else raise e)
  else mret command.

Definition project_root : str := parent H (parent H (script_dir H)).

(** [asyncio.create_subprocess_exec] on [command], with [cwd] and [env] *)
Definition launch (command : list str) (env : loc) : M child := fun s =>
  let p := {| argv := command; cwd := Some project_root;
              env_passed := Some (dict_of s env) |} in
  (create_subprocess_exec H p,
   {| objects := objects s; log := log s; spawned := spawned s ++ [p] |}).

(** Lines 245-253: decode one line and strip its end. *)
Definition decode_line (line_bytes : bytes) : M str :=
  try_except
    (line ← lift (decode (SUBPROCESS_ENCODING K) strict line_bytes);
     mret (rstrip [LF; CR] line))
    (fun e =>
       if isinstance e UnicodeDecodeError then
         line ← lift (decode (SUBPROCESS_ENCODING K)
                        SUBPROCESS_ERROR_HANDLING line_bytes);
         mret (rstrip [LF; CR] line)
       else raise e).

(** One turn of the loop of [read_stream], from the result of
    [readline]: [false] when the loop is left. *)
Definition read_stream (prefix : str) (read : outcome bytes) : M bool :=
  line_bytes ← lift read;
  if negb (truthy line_bytes) then mret false
  else
    line ← decode_line line_bytes;
    (if truthy line then write_line (prefix ++ line) else mret tt) ;;
    mret true.

Definition STDERR_PREFIX : str := [0x26A0; 0xFE0F] ++ lit "  STDERR: ".

Definition prefix_of_stream (s : stream) : str :=
  match s with
  | Stdout => []
  | Stderr => STDERR_PREFIX
  end.

(** The two [read_stream] tasks under [asyncio.gather]: which of them
    still runs. *)
Record readers := mk_readers {
  stdout_running : bool;
  stderr_running : bool;
}.

Definition running (r : readers) (s : stream) : bool :=
  match s with
  | Stdout => stdout_running r
  | Stderr => stderr_running r
  end.

(** The reader of [s] has left its loop or has raised. *)
Definition finish (r : readers) (s : stream) : readers :=
  {| stdout_running := match s with Stdout => false | _ => stdout_running r end;
     stderr_running := match s with Stderr => false | _ => stderr_running r end |}.

(** [await asyncio.gather] of the two [read_stream] tasks: every arrival
    resumes its reader for one turn of the loop, and a reader that left
    its loop is not resumed again.  The arrivals stand in the order in
    which their effect reaches the caller: an exception of a reader is
    raised to the caller where it stands, and the run goes on from there
    without waiting for the other reader, which stays behind with the
    arrivals that follow ([left_behind], [drain]).  At the end of the
    arrivals both readers have returned. *)
Fixpoint gather (events : list arrival) (r : readers) : M unit :=
  match events with
  | [] => mret tt
  | (s, read) :: rest =>
      if running r s then
        turn ← attempt (read_stream (prefix_of_stream s) read);
        match turn with
        | Return true => gather rest r
        | Return false => gather rest (finish r s)
        | Raise e => raise e
        end
      else gather rest r
  end.

Definition both_running : readers :=
  {| stdout_running := true; stderr_running := true |}.

(** Lines 271-279: the completion status. *)
Definition show_status (return_code : Z) : M unit :=
  write_line [] ;;
  write_line (SEPARATOR K) ;;
  (if Z.eqb return_code EXIT_CODE_SUCCESS then
     write_line (MSG_VALIDATION_SUCCESS K)
   else if Z.eqb return_code EXIT_CODE_WARNINGS then
     write_line (MSG_VALIDATION_WARNINGS K)
   else
     write_line (format (MSG_VALIDATION_FAILED K) (str_of_int return_code))) ;;
  write_line (SEPARATOR K).

(** Lines 157-268: from the environment to the exit code. *)
Definition run_child : M Z :=
  env ← build_env;
  command ← build_command;
  process ← launch command env;
  gather (arrivals process) both_running ;;
  lift (wait process).

(** Lines 157-279: the body of the [try]. *)
Definition try_body : M unit :=
  return_code ← run_child;
  show_status return_code.

(** Lines 281-300: the handlers. *)
Definition except_handlers (script_path : str) (e : exn) : M unit :=
  if isinstance e FileNotFoundError then
    write_line (ERR_BASH_NOT_FOUND K) ;;
    write_line (ERR_BASH_HINT K)
  else if isinstance e PermissionError then
    write_line (ERR_PERMISSION_DENIED K) ;;
    write_line (format (ERR_PERMISSION_HINT K) script_path)
  else if isinstance e OSError || isinstance e RuntimeError
          || isinstance e ValueError then
    write_line (format (ERR_UNEXPECTED K) (exc_name e)) ;;
    write_line (lit "   " ++ exc_message e) ;;
    write_line [] ;;
    write_line (lit "Full traceback:") ;;
    for_each (split LF (exc_traceback e)) (fun line =>
      if truthy (strip line) then write_line (lit "   " ++ line)
      else mret tt)
  else raise e.

Definition script_path : str :=
  joinpath H (joinpath H (script_dir H) (lit "00_validate_prerequisites"))
    (lit "00_validate_prerequisites.sh").

Definition run_validation : M unit :=
  clear ;;
  write_line (SEPARATOR K) ;;
  write_line (MSG_RUNNING_VALIDATION K) ;;
  write_line (SEPARATOR K) ;;
  write_line [] ;;
  write_line ([0x1F50D] ++ lit " Environment Diagnostics:") ;;
  write_line (lit "   OS: " ++ sys_platform H) ;;
  write_line (lit "   Python: " ++ python_version H) ;;
  write_line [] ;;
  if negb (exists_on_disk H script_path) then
    write_line (format (ERR_SCRIPT_NOT_FOUND K) script_path)
  else
    try_except try_body (except_handlers script_path).

End Program.

(** ** The stream reader, the widget and the readers left behind *)





(** A text without its line terminator, a line feed or a carriage return
    and a line feed. *)
Definition without_terminator (t : str) : str :=
  match rev t with
  | c1 :: r1 =>
      if N.eqb c1 LF then
        match r1 with
        | c2 :: r2 => if N.eqb c2 CR then rev r2 else rev r1
        | [] => []
        end
      else t
  | [] => t
  end.

(** The characters at which [str.splitlines] ends a line. *)
Definition line_boundary (c : codepoint) : bool :=
  existsb (N.eqb c) [10; 11; 12; 13; 28; 29; 30; 133; 0x2028; 0x2029].

(** [s.splitlines()] *)
Fixpoint splitlines (s : str) : list str :=
  match s with
  | [] => []
  | c :: s' =>
      if line_boundary c then
        [] :: (if N.eqb c CR then
                 match s' with
                 | d :: s'' => if N.eqb d LF then splitlines s'' else splitlines s'
                 | [] => []
                 end
               else splitlines s')
      else match splitlines s' with
           | [] => [[c]]
           | piece :: pieces => (c :: piece) :: pieces
           end
  end.

(** The lines that the [Log] widget holds after the calls [calls] of
    [write_line]: Textual's [Log.write_line] adds [text.splitlines()]. *)
Definition shown (calls : list str) : list str := flat_map splitlines calls.

(** An arrival that is not an exception. *)
Definition readable (a : arrival) : Prop := exists data, a.2 = Return data.

(** Which readers still run after the arrivals [events], none of which is
    an exception: an empty read ends its reader. *)
Fixpoint after_reads (events : list arrival) (r : readers) : readers :=
  match events with
  | [] => r
  | (s, Return []) :: rest => after_reads rest (finish r s)
  | _ :: rest => after_reads rest r
  end.

(** What [gather] leaves running when a reader raises: the other reader
    and the arrivals that follow. *)
Fixpoint left_behind (events : list arrival) (r : readers)
    : option (readers * list arrival) :=
  match events with
  | [] => None
  | (s, read) :: rest =>
      if running r s then
        match read with
        | Raise _ => Some (finish r s, rest)
        | Return [] => left_behind rest (finish r s)
        | Return _ => left_behind rest r
        end
      else left_behind rest r
  end.

(** The readers left behind go on: each arrival resumes its reader for
    one turn, and an exception now ends its reader and nothing else. *)
Fixpoint drain (K : constants) (events : list arrival) (r : readers)
    (st : state) : state :=
  match events with
  | [] => st
  | (s, read) :: rest =>
      if running r s then
        match read_stream K (prefix_of_stream s) read st with
        | (Return true, st') => drain K rest r st'
        | (_, st') => drain K rest (finish r s) st'
        end
      else drain K rest r st
  end.

(** ** Vocabulary of the statements *)

(** The state after [lines] were written to the log. *)
Definition logged (st : state) (lines : list str) : state :=
  {| objects := objects st; log := log st ++ lines; spawned := spawned st |}.

(** A line as the child wrote it: the stream it went to, the bytes that
    [readline] gives for it, and its text and line ending. *)
Record produced := mk_produced {
  source : stream;
  raw : bytes;
  text : str;
  ending : str;
}.



(** The bytes of [p] are its text and its ending in the encoding [c];
    the ending is made of line feeds and carriage returns and the text
    does not end with one. *)
Definition carries (c : codec) (p : produced) : Prop :=
  raw p <> [] /\
  decode c strict (raw p) = Return (text p ++ ending p) /\
  Forall (fun x => x = LF \/ x = CR) (ending p) /\
  (forall x, last (text p) = Some x -> x <> LF /\ x <> CR).




(** [line] is what the relay writes for one of the lines in [events]: the
    prefix of the stream and the decoded, stripped, non-empty text. *)
Definition relayed (K : constants) (events : list arrival) (line : str) : Prop :=
  exists s data t st,
    (s, Return data) ∈ events /\ data <> []
    /\ decode_line K data st = (Return t, st) /\ t <> []
    /\ line = prefix_of_stream s ++ t.

(** [line] is the relay of a line of a child that the host launches. *)
Definition child_output (K : constants) (H : host) (line : str) : Prop :=
  exists sp p,
    create_subprocess_exec H sp = Return p /\ relayed K (arrivals p) line.

(** The lines that open every run (lines 136-145). *)
Definition preamble (K : constants) (H : host) : list str :=
  [ SEPARATOR K; MSG_RUNNING_VALIDATION K; SEPARATOR K; [];
    [0x1F50D] ++ lit " Environment Diagnostics:";
    lit "   OS: " ++ sys_platform H;
    lit "   Python: " ++ python_version H;
    [] ].

(** The state in which the check of the script path is made: the log was
    cleared and holds the opening texts. *)
Definition opened (K : constants) (H : host) (st : state) : state :=
  {| objects := objects st; log := preamble K H; spawned := spawned st |}.

(** The offset of the first occurrence of [sub] in [s]. *)
Fixpoint offset (sub s : str) : option nat :=
  if startswith s sub then Some 0%nat
  else match s with
       | [] => None
       | _ :: s' => S <$> offset sub s'
       end.

(** The directories that the loop over [paths] prepends to
    [windows_path], in the order in which it prepends them. *)
Fixpoint prepended (H : host) (environ : gmap str str) (paths : list str)
    (windows_path : str) : list str :=
  match paths with
  | [] => []
  | path :: rest =>
      let d := expand H environ path in
      if exists_on_disk H d && negb (contains d windows_path)
      then d :: prepended H environ rest (d ++ [SEMICOLON] ++ windows_path)
      else prepended H environ rest windows_path
  end.

(** The front of a PATH value that lists [dirs]. *)
Definition front (dirs : list str) : str :=
  flat_map (fun d => d ++ [SEMICOLON]) dirs.

(** The order that the spec words for the result of the loop: of two
    prepended directories, the one that is earlier in [paths] starts
    nearer to the front of [result]. *)
Definition earlier_nearer_front (H : host) (environ : gmap str str)
    (paths : list str) (windows_path result : str) : Prop :=
  forall (i j : nat) (d1 d2 : str) (o1 o2 : nat),
    (i < j)%nat ->
    (expand H environ <$> paths) !! i = Some d1 ->
    (expand H environ <$> paths) !! j = Some d2 ->
    d1 ∈ prepended H environ paths windows_path ->
    d2 ∈ prepended H environ paths windows_path ->
    offset d1 result = Some o1 -> offset d2 result = Some o2 ->
    (o1 < o2)%nat.

(** [m] leaves the objects at the locations in [P] as they are. *)
Definition preserves {A} (P : loc -> Prop) (m : M A) : Prop :=
  forall st l, P l -> objects (m st).2 !! l = objects st !! l.

(** ** Sample hosts

    Concrete constants and hosts on which the runs below are evaluated.
    The message texts stand for those of the missing [constants]
    package. *)

Module Sample.

Definition K : constants :=
  {| MSG_RUNNING_VALIDATION := lit "Running prerequisite validation...";
     MSG_VALIDATION_SUCCESS := lit "Validation completed successfully";
     MSG_VALIDATION_WARNINGS := lit "Validation completed with warnings";
     MSG_VALIDATION_FAILED :=
       {| before := lit "Validation failed with exit code "; after := [] |};
     ERR_SCRIPT_NOT_FOUND :=
       {| before := lit "Script not found: "; after := [] |};
     ERR_BASH_NOT_FOUND := lit "Bash not found";
     ERR_BASH_HINT := lit "Install Git Bash or WSL";
     ERR_PERMISSION_DENIED := lit "Permission denied";
     ERR_PERMISSION_HINT := {| before := lit "Try: chmod +x "; after := [] |};
     ERR_UNEXPECTED := {| before := lit "Unexpected error: "; after := [] |};
     SEPARATOR := lit "============";
     VALIDATION_SCRIPT_PATH :=
       lit "scripts/deploy/00_validate_prerequisites/00_validate_prerequisites.sh";
     BASH_FLAGS := [];
     SUBPROCESS_ENCODING := Utf8.utf8 |}.

Definition join (sep : str) (a b : str) : str := a ++ sep ++ b.

(** A child that prints two lines and one blank line on stdout, one
    line with a stray byte on stderr, and exits with status 2. *)
Definition child2 : child :=
  {| arrivals :=
       [ (Stdout, Return (Utf8.ascii_bytes "checking az" ++ [x0a]));
         (Stderr, Return (Utf8.ascii_bytes "az: " ++ [xff; x0d; x0a]));
         (Stdout, Return [x0d; x0a]);
         (Stdout, Return (Utf8.ascii_bytes "done" ++ [x0d; x0a])) ];
     wait := Return 2%Z |}.

(** A Linux host with [stdbuf] installed. *)
Definition linux : host :=
  {| sys_platform := lit "linux";
     python_version := lit "3.11.4";
     script_dir := lit "/repo/scripts/deploy";
     joinpath := join (lit "/");
     parent := fun p => p ++ lit "/..";
     exists_on_disk := fun _ => true;
     substitute_vars := fun _ p => p;
     which_stdbuf := Return 0%Z;
     create_subprocess_exec := fun _ => Return child2 |}.

Definition not_found : exn :=
  {| exc_type := FileNotFoundError;
     exc_name := lit "FileNotFoundError";
     exc_message := lit "[Errno 2] No such file or directory: 'stdbuf'";
     exc_traceback := lit "FileNotFoundError: [Errno 2] No such file or directory: 'stdbuf'" |}.

(** A Linux host without [stdbuf]: [which] runs and ends with status 1,
    and a command line that starts with [stdbuf] cannot be launched. *)
Definition linux_without_stdbuf : host :=
  {| sys_platform := lit "linux";
     python_version := lit "3.11.4";
     script_dir := lit "/repo/scripts/deploy";
     joinpath := join (lit "/");
     parent := fun p => p ++ lit "/..";
     exists_on_disk := fun _ => true;
     substitute_vars := fun _ p => p;
     which_stdbuf := Return 1%Z;
     create_subprocess_exec := fun p =>
       match argv p with
       | program :: _ =>
           if str_eqb program (lit "stdbuf") then Raise not_found
           else Return child2
       | [] => Raise not_found
       end |}.

(** A Linux host where the validation script is missing. *)
Definition linux_without_script : host :=
  {| sys_platform := lit "linux";
     python_version := lit "3.11.4";
     script_dir := lit "/repo/scripts/deploy";
     joinpath := join (lit "/");
     parent := fun p => p ++ lit "/..";
     exists_on_disk := fun _ => false;
     substitute_vars := fun _ p => p;
     which_stdbuf := Return 0%Z;
     create_subprocess_exec := fun _ => Return child2 |}.

Definition reset : exn :=
  {| exc_type := OSError;
     exc_name := lit "ConnectionResetError";
     exc_message := lit "[Errno 104] Connection reset by peer";
     exc_traceback :=
       lit "Traceback (most recent call last):" ++ [LF] ++
       lit "  File deploy_tui.py, line 240, in read_stream" ++ [LF] ++
       lit "   " ++ [LF] ++
       lit "ConnectionResetError: [Errno 104] Connection reset by peer" ++ [LF] |}.

(** A Linux host where reading the child's stderr fails. *)
Definition linux_read_error : host :=
  {| sys_platform := lit "linux";
     python_version := lit "3.11.4";
     script_dir := lit "/repo/scripts/deploy";
     joinpath := join (lit "/");
     parent := fun p => p ++ lit "/..";
     exists_on_disk := fun _ => true;
     substitute_vars := fun _ p => p;
     which_stdbuf := Return 0%Z;
     create_subprocess_exec := fun _ =>
       Return {| arrivals :=
                   [ (Stdout, Return (Utf8.ascii_bytes "checking az" ++ [x0a]));
                     (Stderr, Raise reset);
                     (Stdout, Return (Utf8.ascii_bytes "done" ++ [x0a])) ];
                 wait := Return 0%Z |} |}.

Definition azure_cli : str := lit "C:\Program Files\Azure CLI\wbin".
Definition nodejs : str := lit "C:\Program Files\nodejs".

(** A Windows host with the Azure CLI and Node.js installed. *)
Definition windows : host :=
  {| sys_platform := lit "win32";
     python_version := lit "3.11.4";
     script_dir := lit "C:\repo\scripts\deploy";
     joinpath := join (lit "\");
     parent := fun p => p ++ lit "\..";
     exists_on_disk := fun p =>
       str_eqb p azure_cli || str_eqb p nodejs || startswith p (lit "C:\repo");
     substitute_vars := fun _ p => p;
     which_stdbuf := Raise not_found;
     create_subprocess_exec := fun _ => Return child2 |}.

(** Lines as a child wrote them, the third one blank. *)
Definition lines : list produced :=
  [ {| source := Stdout; raw := Utf8.ascii_bytes "checking az" ++ [x0a];
       text := lit "checking az"; ending := [LF] |};
    {| source := Stderr; raw := [xe2; x82; xac] ++ Utf8.ascii_bytes " 5" ++ [x0d; x0a];
       text := [0x20AC] ++ lit " 5"; ending := [CR; LF] |};
    {| source := Stdout; raw := [x0d; x0a]; text := []; ending := [CR; LF] |};
    {| source := Stdout; raw := Utf8.ascii_bytes "done";
       text := lit "done"; ending := [] |} ].

Definition environ : gmap str str :=
  {[ lit "PATH" := lit "C:\Windows"; lit "HOME" := lit "/root" ]}.

Definition start : state :=
  {| objects := {[ environ_loc := environ ]};
     log := [lit "old line"];
     spawned := [] |}.

End Sample.

(** ** The other handlers of [DeploymentTUI]

    [on_mount], [action_clear] and [on_button_pressed], with the three
    messages of the [constants] package that only they use. *)

Record ui_constants := mk_ui_constants {
  WELCOME_MESSAGE : str;
  MSG_CLICK_TO_VALIDATE : str;
  MSG_OUTPUT_CLEARED : str;
}.

Section Handlers.

Context (K : constants) (U : ui_constants) (H : host).

(** Lines 105-112. *)
Definition on_mount : M unit :=
  write_line (WELCOME_MESSAGE U) ;;
  write_line (lit "Project root: " ++ project_root H) ;;
  write_line [] ;;
  write_line (MSG_CLICK_TO_VALIDATE U) ;;
  write_line [].

(** Lines 302-307. *)
Definition action_clear : M unit :=
  clear ;;
  write_line (MSG_OUTPUT_CLEARED U) ;;
  write_line [].

(** Lines 114-123; [button_id] is [event.button.id], which is [None] for a
    button without an id. *)
Definition on_button_pressed (button_id : option str) : M unit :=
  if bool_decide (button_id = Some (lit "validate_btn")) then
    run_validation K H
  else if bool_decide (button_id = Some (lit "clear_btn")) then
    action_clear
  else mret tt.

(** The application from its mounting on: [on_mount], then one call of
    [on_button_pressed] for each button pressed, until an exception
    leaves a handler. *)
Definition session (presses : list (option str)) : M unit :=
  on_mount ;;
  for_each presses on_button_pressed.

End Handlers.

(** ** More vocabulary *)

(** The environment that [build_env] makes from the mapping [environ] of
    [os.environ]. *)
Definition child_environment (H : host) (environ : gmap str str)
    : gmap str str :=
  let env := <[lit "PYTHONUNBUFFERED" := lit "1"]> environ in
  if is_windows H then
    let env := <[lit "PYTHONIOENCODING" := lit "utf-8"]> env in
    match env !! lit "PATH" with
    | Some windows_path =>
        <[lit "PATH" :=
            front (rev (prepended H environ (common_paths_in H environ)
                          windows_path))
            ++ windows_path]>
          (<[lit "ORIGINAL_PATH" := windows_path]> env)
    | None => env
    end
  else env.

(** The command line of the validation script, without [stdbuf]. *)
Definition bash_command (K : constants) : list str :=
  [lit "bash"] ++ BASH_FLAGS K ++ [VALIDATION_SCRIPT_PATH K].

(** The process that probes for [stdbuf]. *)
Definition probe : spawn :=
  {| argv := [lit "which"; lit "stdbuf"]; cwd := None; env_passed := None |}.

(** A process that runs the validation script: bash on the script, with
    or without [stdbuf] in front, in the project root and with an
    environment of its own. *)
Definition validation_child (K : constants) (H : host) (sp : spawn) : Prop :=
  (argv sp = bash_command K
   \/ argv sp = [lit "stdbuf"; lit "-o0"; lit "-e0"] ++ bash_command K)
  /\ cwd sp = Some (project_root H)
  /\ is_Some (env_passed sp).

(** The state [st] with the dictionary [env] at the location [l]. *)
Definition with_env (st : state) (l : loc) (env : gmap str str) : state :=
  {| objects := <[l := env]> (objects st); log := log st;
     spawned := spawned st |}.

(** What [build_command] ends with, and the probes it creates. *)
Definition command_result (K : constants) (H : host) : outcome (list str) :=
  if is_windows H then Return (bash_command K)
  else match which_stdbuf H with
       | Return _ =>
           Return ([lit "stdbuf"; lit "-o0"; lit "-e0"] ++ bash_command K)
       | Raise e =>
           if isinstance e TimeoutExpired || isinstance e FileNotFoundError
           then Return (bash_command K)
           else Raise e
       end.

Definition probes (H : host) : list spawn :=
  if is_windows H then [] else [probe].

Definition empty_state : state :=
  {| objects := ∅; log := []; spawned := [] |}.

(** The relay seen from outside: how [gather] ends and the lines it
    writes. *)
Definition relay (K : constants) (events : list arrival) (r : readers)
    : outcome unit * list str :=
  ((gather K events r empty_state).1, log (gather K events r empty_state).2).

(** The part of a run before the status, seen from outside: how it ends,
    the lines it writes and the processes it creates, from the mapping of
    [os.environ]. *)
Definition child_run (K : constants) (H : host) (environ : gmap str str)
    : outcome Z * list str * list spawn :=
  match command_result K H with
  | Raise e => (Raise e, [], probes H)
  | Return command =>
      let sp := {| argv := command; cwd := Some (project_root H);
                   env_passed := Some (child_environment H environ) |} in
      match create_subprocess_exec H sp with
      | Raise e => (Raise e, [], probes H ++ [sp])
      | Return process =>
          (match (relay K (arrivals process) both_running).1 with
           | Return _ => wait process
           | Raise e => Raise e
           end,
           (relay K (arrivals process) both_running).2,
           probes H ++ [sp])
      end
  end.

(** The state after the processes [sps] were created. *)
Definition spawning (st : state) (sps : list spawn) : state :=
  {| objects := objects st; log := log st; spawned := spawned st ++ sps |}.

(** The end of a run seen from outside: the status for an exit code, the
    handlers for an exception; how it ends and the lines it writes. *)
Definition closing (K : constants) (path : str) (o : outcome Z)
    : outcome unit * list str :=
  let end_of_run :=
    match o with
    | Return return_code => show_status K return_code
    | Raise e => except_handlers K path e
    end in
  ((end_of_run empty_state).1, log (end_of_run empty_state).2).

(** The process that [launch] creates for the command line [command]. *)
Definition the_child (H : host) (environ : gmap str str) (command : list str)
    : spawn :=
  {| argv := command; cwd := Some (project_root H);
     env_passed := Some (child_environment H environ) |}.


(** The readers that a run leaves behind. *)
Definition readers_left (K : constants) (H : host) (environ : gmap str str)
    : option (readers * list arrival) :=
  match command_result K H with
  | Return command =>
      match create_subprocess_exec H (the_child H environ command) with
      | Return process => left_behind (arrivals process) both_running
      | Raise _ => None
      end
  | Raise _ => None
  end.



Definition other_stream (s : stream) (a : arrival) : bool :=
  match s, a.1 with
  | Stdout, Stderr | Stderr, Stdout => true
  | _, _ => false
  end.

Definition is_validate (button_id : option str) : bool :=
  bool_decide (button_id = Some (lit "validate_btn")).

Module SampleUI.

Definition U : ui_constants :=
  {| WELCOME_MESSAGE := lit "Welcome to the Azure Deployment TUI";
     MSG_CLICK_TO_VALIDATE := lit "Click the button to validate";
     MSG_OUTPUT_CLEARED := lit "Output cleared" |}.

Definition not_permitted : exn :=
  {| exc_type := PermissionError;
     exc_name := lit "PermissionError";
     exc_message := lit "[Errno 13] Permission denied: 'which'";
     exc_traceback := lit "PermissionError: [Errno 13] Permission denied: 'which'" |}.

(** A Linux host where [which] may not be executed. *)
Definition linux_probe_denied : host :=
  {| sys_platform := lit "linux";
     python_version := lit "3.11.4";
     script_dir := lit "/repo/scripts/deploy";
     joinpath := Sample.join (lit "/");
     parent := fun p => p ++ lit "/..";
     exists_on_disk := fun _ => true;
     substitute_vars := fun _ p => p;
     which_stdbuf := Raise not_permitted;
     create_subprocess_exec := fun _ => Return Sample.child2 |}.

(** A Linux host without [which]. *)
Definition linux_without_which : host :=
  {| sys_platform := lit "linux";
     python_version := lit "3.11.4";
     script_dir := lit "/repo/scripts/deploy";
     joinpath := Sample.join (lit "/");
     parent := fun p => p ++ lit "/..";
     exists_on_disk := fun _ => true;
     substitute_vars := fun _ p => p;
     which_stdbuf := Raise Sample.not_found;
     create_subprocess_exec := fun _ => Return Sample.child2 |}.

(** A state whose [os.environ] has no PATH. *)
Definition start_without_path : state :=
  {| objects := {[ environ_loc := {[ lit "HOME" := lit "/root" ]} ]};
     log := [];
     spawned := [] |}.

End SampleUI.

Module SampleRelay.




(** A child that prints a line and closes stdout, then prints a line
    with a stray byte and another line on stderr, and exits with
    status 1. *)
Definition child3 : child :=
  {| arrivals :=
       [ (Stdout, Return (Utf8.ascii_bytes "checking az" ++ [x0a]));
         (Stdout, Return []);
         (Stderr, Return (Utf8.ascii_bytes "az: " ++ [xff; x0d; x0a]));
         (Stderr, Return (Utf8.ascii_bytes "done" ++ [x0a]));
         (Stderr, Return []) ];
     wait := Return 1%Z |}.

(** A Linux host whose validation script is [child3]. *)
Definition linux_malformed : host :=
  {| sys_platform := lit "linux";
     python_version := lit "3.11.4";
     script_dir := lit "/repo/scripts/deploy";
     joinpath := Sample.join (lit "/");
     parent := fun p => p ++ lit "/..";
     exists_on_disk := fun _ => true;
     substitute_vars := fun _ p => p;
     which_stdbuf := Return 0%Z;
     create_subprocess_exec := fun _ => Return child3 |}.




End SampleRelay.

(** * Properties *)

(** ** Strings *)

Example str_of_int_2 : str_of_int 2 = lit "2".
Proof. reflexivity. Qed.

Example str_of_int_neg : str_of_int (-15) = lit "-15".
Proof. reflexivity. Qed.

Example str_of_int_0 : str_of_int 0 = lit "0".
Proof. reflexivity. Qed.

Example rstrip_crlf : rstrip [LF; CR] (lit "ab" ++ [CR; LF]) = lit "ab".
Proof. reflexivity. Qed.

Example split_ex : split LF (lit "a" ++ [LF; LF] ++ lit "b") = [lit "a"; []; lit "b"].
Proof. reflexivity. Qed.

Example splitlines_ex :
  splitlines [] = []
  /\ splitlines [LF] = [[]]
  /\ splitlines (lit "a" ++ [CR; LF] ++ lit "b" ++ [LF]) = [lit "a"; lit "b"]
  /\ splitlines (lit "a" ++ [CR] ++ lit "b" ++ [0x2028] ++ lit "c")
     = [lit "a"; lit "b"; lit "c"]
  /\ splitlines (lit "a" ++ [LF; LF] ++ lit "b") = [lit "a"; []; lit "b"].
Proof. repeat split; reflexivity. Qed.

Example without_terminator_ex :
  without_terminator (lit "ab" ++ [LF]) = lit "ab"
  /\ without_terminator (lit "ab" ++ [CR; LF]) = lit "ab"
  /\ without_terminator (lit "ab") = lit "ab".
Proof. repeat split; reflexivity. Qed.


Lemma startswith_app (pre t : str) : startswith (pre ++ t) pre = true.
Proof. induction pre as [|c pre IH]; simpl; [done|]. by rewrite N.eqb_refl. Qed.


Lemma has_char_elem (c : codepoint) (s : str) : has_char c s = true <-> c ∈ s.
Proof.
  unfold has_char. rewrite existsb_exists. split.
  - intros (x & Hx & Heq). apply N.eqb_eq in Heq as ->. by apply list_elem_of_In.
  - intros Hc. exists c. split; [by apply list_elem_of_In | apply N.eqb_refl].
Qed.






Lemma rstrip_all (chars term : str) :
  Forall (fun c => c ∈ chars) term -> rstrip chars term = [].
Proof.
  induction 1 as [|c term Hc _ IH]; simpl; [done|].
  rewrite IH. apply has_char_elem in Hc. by rewrite Hc.
Qed.


Lemma rstrip_elem (chars s : str) (x : codepoint) :
  x ∈ s -> x ∉ chars -> x ∈ rstrip chars s.
Proof.
  intros Hx Hc. induction s as [|c s IH]; [by apply elem_of_nil in Hx|].
  simpl. apply elem_of_cons in Hx as [-> | Hx].
  - destruct (rstrip chars s).
    + destruct (has_char c chars) eqn:E.
      * apply has_char_elem in E. done.
      * by left.
    + by left.
  - specialize (IH Hx). destruct (rstrip chars s); [by apply elem_of_nil in IH|].
    by right.
Qed.

(** What [rstrip] leaves has no character of [chars] at its end, and what
    it removes is made of characters of [chars]. *)
Lemma rstrip_split (chars s : str) :
  exists term, s = rstrip chars s ++ term /\ Forall (fun c => c ∈ chars) term.
Proof.
  induction s as [|c s (term & Hs & Ht)]; simpl.
  - by exists [].
  - destruct (rstrip chars s) eqn:E.
    + destruct (has_char c chars) eqn:Ec.
      * exists (c :: term). split.
        { simpl in Hs. by rewrite Hs at 1. }
        constructor; [by apply has_char_elem|done].
      * exists term. split; [|done]. simpl in *. by rewrite Hs at 1.
    + exists term. split; [|done]. simpl. by rewrite Hs at 1.
Qed.

Lemma rstrip_last (chars s : str) (x : codepoint) :
  last (rstrip chars s) = Some x -> x ∉ chars.
Proof.
  induction s as [|c s IH]; simpl; [done|].
  destruct (rstrip chars s) as [|d t] eqn:E.
  - destruct (has_char c chars) eqn:Ec; simpl; [done|].
    intros [= <-] Hin. apply has_char_elem in Hin. congruence.
  - intros Hl. apply IH. by rewrite <- Hl.
Qed.


(** ** Decoding *)

Example utf8_euro :
  decode Utf8.utf8 strict [xe2; x82; xac; x0a] = Return [0x20AC; LF].
Proof. reflexivity. Qed.

Example utf8_emoji :
  decode Utf8.utf8 strict [xf0; x9f; x94; x8d] = Return [0x1F50D].
Proof. reflexivity. Qed.

Example utf8_bad_strict :
  decode Utf8.utf8 strict [x61; xff; x62]
  = Raise (decode_error Utf8.utf8 [x61; xff; x62]).
Proof. reflexivity. Qed.

Example utf8_bad_replace :
  decode Utf8.utf8 replace [x61; xe2; x82; x28; xff; x62; xc3]
  = Return [97; REPLACEMENT_CHARACTER; 40; REPLACEMENT_CHARACTER; 98;
            REPLACEMENT_CHARACTER].
Proof. reflexivity. Qed.

Example utf8_truncated_replace :
  decode Utf8.utf8 replace [xf0; x9f; x94; x0a] = Return [REPLACEMENT_CHARACTER; LF]
  /\ decode Utf8.utf8 replace [xf0; x9f; x94] = Return [REPLACEMENT_CHARACTER].
Proof. split; reflexivity. Qed.

Example utf8_out_of_range_replace :
  decode Utf8.utf8 replace [xf4; x90; x80; x80]
  = Return [REPLACEMENT_CHARACTER; REPLACEMENT_CHARACTER;
            REPLACEMENT_CHARACTER; REPLACEMENT_CHARACTER]
  /\ decode Utf8.utf8 replace [xe0; x80; x80]
     = Return [REPLACEMENT_CHARACTER; REPLACEMENT_CHARACTER;
               REPLACEMENT_CHARACTER]
  /\ decode Utf8.utf8 replace [xf0; x90; x28; x80]
     = Return [REPLACEMENT_CHARACTER; 40; REPLACEMENT_CHARACTER].
Proof. repeat split; reflexivity. Qed.

Example utf8_surrogate_replace :
  decode Utf8.utf8 replace [xed; xa0; x80]
  = Return [REPLACEMENT_CHARACTER; REPLACEMENT_CHARACTER; REPLACEMENT_CHARACTER].
Proof. reflexivity. Qed.

Lemma decode_loop_replace (c : codec) (skip : nat) (data : bytes) :
  is_Some (decode_loop c replace skip data).
Proof.
  revert skip. induction data as [|b data IH]; intros skip; simpl; [by eexists|].
  destruct skip as [|k]; [|apply IH].
  destruct (next c (b :: data)) as [cp used|used];
    destruct (IH (pred used)) as [t ->]; by eexists.
Qed.

Lemma decode_loop_malformed (c : codec) (skip : nat) (data : bytes) :
  decode_loop c strict skip data = None ->
  exists t, decode_loop c replace skip data = Some t /\ REPLACEMENT_CHARACTER ∈ t.
Proof.
  revert skip. induction data as [|b data IH]; intros skip; simpl; [done|].
  destruct skip as [|k]; [|apply IH].
  destruct (next c (b :: data)) as [cp used|used].
  - destruct (decode_loop c strict (pred used) data) eqn:E; [done|].
    intros _. destruct (IH _ E) as (t & -> & Ht).
    exists (cp :: t). split; [done|]. by right.
  - intros _. destruct (decode_loop_replace c (pred used) data) as [t ->].
    exists (REPLACEMENT_CHARACTER :: t). split; [done|]. by left.
Qed.

Lemma decode_malformed (c : codec) (data : bytes) (e : exn) :
  decode c strict data = Raise e ->
  e = decode_error c data /\
  exists t, decode c replace data = Return t /\ REPLACEMENT_CHARACTER ∈ t.
Proof.
  unfold decode. destruct (decode_loop c strict 0 data) eqn:E; [done|].
  intros [= <-]. split; [done|].
  destruct (decode_loop_malformed _ _ _ E) as (t & -> & Ht). by exists t.
Qed.

(** ** The relay of the two streams *)

Section Relay.

Context (K : constants).

Lemma decode_line_wellformed (data : bytes) (t : str) (st : state) :
  decode (SUBPROCESS_ENCODING K) strict data = Return t ->
  decode_line K data st = (Return (rstrip [LF; CR] t), st).
Proof.
  intros Hd. unfold decode_line, try_except, mbind, M_bind, lift, mret, M_ret.
  by rewrite Hd.
Qed.

Lemma decode_line_malformed (data : bytes) (e : exn) (st : state) :
  decode (SUBPROCESS_ENCODING K) strict data = Raise e ->
  exists t,
    decode (SUBPROCESS_ENCODING K) replace data = Return t /\
    REPLACEMENT_CHARACTER ∈ t /\
    decode_line K data st = (Return (rstrip [LF; CR] t), st).
Proof.
  intros Hd. destruct (decode_malformed _ _ _ Hd) as (-> & t & Ht & Hin).
  exists t. split; [done|]. split; [done|].
  unfold decode_line, try_except, mbind, M_bind, lift, mret, M_ret.
  rewrite Hd. unfold SUBPROCESS_ERROR_HANDLING. simpl. by rewrite Ht.
Qed.

(** Decoding a line never raises. *)
Lemma decode_line_total (data : bytes) (st : state) :
  exists line, decode_line K data st = (Return line, st).
Proof.
  destruct (decode (SUBPROCESS_ENCODING K) strict data) as [t|e] eqn:E.
  - eexists. by apply decode_line_wellformed.
  - destruct (decode_line_malformed data e st E) as (t & _ & _ & Hl).
    by eexists.
Qed.

Lemma read_stream_line (prefix : str) (data : bytes) (line : str) (st : state) :
  data <> [] ->
  decode_line K data st = (Return line, st) ->
  read_stream K prefix (Return data) st
  = (Return true, if truthy line then logged st [prefix ++ line] else st).
Proof.
  intros Hne Hl. unfold read_stream, mbind, M_bind, lift.
  destruct data as [|b data]; [done|]. unfold truthy at 1. cbn [negb].
  rewrite Hl. by destruct line.
Qed.

Lemma gather_line (s : stream) (data : bytes) (line : str)
    (rest : list arrival) (r : readers) (st : state) :
  data <> [] ->
  decode_line K data st = (Return line, st) ->
  gather K ((s, Return data) :: rest) r st
  = gather K rest r
      (if running r s && truthy line
       then logged st [prefix_of_stream s ++ line] else st).
Proof.
  intros Hne Hl. cbn [gather]. destruct (running r s); [|done].
  unfold mbind, M_bind, attempt.
  rewrite (read_stream_line _ _ _ _ Hne Hl). cbn [andb].
  by destruct (truthy line).
Qed.

Lemma logged_app (st : state) (l1 l2 : list str) :
  logged (logged st l1) l2 = logged st (l1 ++ l2).
Proof. unfold logged. simpl. by rewrite app_assoc. Qed.

Lemma logged_nil (st : state) : logged st [] = st.
Proof. destruct st. unfold logged. simpl. by rewrite app_nil_r. Qed.


(** Every line that decodes is carried by a record: its text is what
    [rstrip] leaves and its ending is what [rstrip] removes. *)
Lemma carries_any (s : stream) (data : bytes) (t : str) :
  data <> [] ->
  decode (SUBPROCESS_ENCODING K) strict data = Return t ->
  exists p, source p = s /\ raw p = data
            /\ text p = rstrip [LF; CR] t
            /\ carries (SUBPROCESS_ENCODING K) p.
Proof.
  intros Hne Hd. destruct (rstrip_split [LF; CR] t) as (term & Ht & Hterm).
  exists {| source := s; raw := data; text := rstrip [LF; CR] t; ending := term |}.
  repeat split; simpl; try done.
  - by rewrite <- Ht.
  - eapply Forall_impl; [exact Hterm|]. intros x Hx.
    apply elem_of_cons in Hx as [-> | Hx]; [by left|].
    apply elem_of_cons in Hx as [-> | Hx]; [by right|].
    by apply elem_of_nil in Hx.
  - intros ->. match goal with Hl : last _ = _ |- _ =>
      apply rstrip_last in Hl; apply Hl end. by left.
  - intros ->. match goal with Hl : last _ = _ |- _ =>
      apply rstrip_last in Hl; apply Hl end. right. by left.
Qed.






Lemma relayed_cons (a : arrival) (events : list arrival) (line : str) :
  relayed K events line -> relayed K (a :: events) line.
Proof.
  intros (s & data & t & st & Hin & Hrest). exists s, data, t, st.
  split; [by right|done].
Qed.

(** The relay writes nothing but the lines of the child. *)
Lemma gather_log (events : list arrival) (r : readers) (st : state) :
  exists lines,
    (gather K events r st).2 = logged st lines
    /\ Forall (relayed K events) lines.
Proof.
  revert r st. induction events as [|[s read] events IH]; intros r st.
  - exists []. split; [|constructor]. by rewrite logged_nil.
  - assert (Hskip : forall r' st', exists lines,
              (gather K events r' st').2 = logged st' lines
              /\ Forall (relayed K ((s, read) :: events)) lines).
    { intros r' st'. destruct (IH r' st') as (lines & Hl & Hall).
      exists lines. split; [done|].
      eapply Forall_impl; [exact Hall|]. intros x. apply relayed_cons. }
    cbn [gather]. destruct (running r s) eqn:Hrun; [|apply Hskip].
    destruct read as [data|e].
    + destruct data as [|b data].
      * unfold mbind, M_bind, attempt, read_stream, lift. simpl. apply Hskip.
      * destruct (decode_line_total (b :: data) st) as [line Hline].
        pose proof (gather_line s (b :: data) line events r st
                      ltac:(done) Hline) as Hg.
        cbn [gather] in Hg. rewrite Hrun in Hg. rewrite Hg. cbn [andb].
        destruct line as [|c line]; [apply Hskip|]. cbn [truthy].
        destruct (IH r (logged st [prefix_of_stream s ++ c :: line]))
          as (lines & Hl & Hall).
        exists ((prefix_of_stream s ++ c :: line) :: lines). split.
        { rewrite Hl. by rewrite logged_app. }
        constructor.
        { exists s, (b :: data), (c :: line), st.
          repeat split; try done. by left. }
        eapply Forall_impl; [exact Hall|]. intros x. apply relayed_cons.
    + unfold mbind, M_bind, attempt, read_stream, lift, raise. simpl.
      exists []. split; [by rewrite logged_nil|constructor].
Qed.

End Relay.

Ltac solve_endings :=
  repeat (apply List.Forall_cons;
          [first [left; reflexivity | right; reflexivity]|]);
  apply List.Forall_nil.










(** C8: a line that is empty once its ending is stripped is not
    delivered, wherever it stands among the other arrivals: the relay
    does exactly what it does when that line is taken out. *)
Theorem blank_line_not_delivered (K : constants) (pre post : list arrival)
    (s : stream) (data : bytes) (term : str) (r : readers) (st : state) :
  data <> [] ->
  decode (SUBPROCESS_ENCODING K) strict data = Return term ->
  Forall (fun x => x = LF \/ x = CR) term ->
  gather K (pre ++ (s, Return data) :: post) r st = gather K (pre ++ post) r st.
Proof.
  intros Hne Hd Hterm. revert r st.
  induction pre as [|[s0 read] pre IH]; intros r st.
  - simpl app. rewrite (gather_line K _ _ (rstrip [LF; CR] term)); try done.
    + rewrite rstrip_all; [by rewrite andb_false_r|].
      eapply Forall_impl; [exact Hterm|]. intros x [-> | ->].
      * by left.
      * right. by left.
    + by apply decode_line_wellformed.
  - simpl app. cbn [gather]. destruct (running r s0); [|apply IH].
    unfold mbind, M_bind, attempt.
    destruct (read_stream K (prefix_of_stream s0) read st) as [[[]|e] st'];
      [apply IH|apply IH|done].
Qed.

Lemma blank_line_not_delivered_witness :
  gather Sample.K
    ([(Stdout, Return (Utf8.ascii_bytes "a" ++ [x0a]))]
       ++ (Stderr, Return [x0d; x0a])
       :: [(Stderr, Return (Utf8.ascii_bytes "b" ++ [x0a]))])
    both_running Sample.start
  = gather Sample.K
      ([(Stdout, Return (Utf8.ascii_bytes "a" ++ [x0a]))]
         ++ [(Stderr, Return (Utf8.ascii_bytes "b" ++ [x0a]))])
      both_running Sample.start.
Proof.
  apply (blank_line_not_delivered Sample.K _ _ Stderr [x0d; x0a] [CR; LF]).
  - discriminate.
  - reflexivity.
  - solve_endings.
Defined.

(** ** Which objects a computation writes *)

Create HintDb frame.

Section Frame.

Context (P : loc -> Prop).

Lemma preserves_ret {A} (a : A) : preserves P (mret a).
Proof. by intros st l _. Qed.

Lemma preserves_raise {A} (e : exn) : preserves P (raise (A:=A) e).
Proof. by intros st l _. Qed.

Lemma preserves_lift {A} (o : outcome A) : preserves P (lift o).
Proof. by intros st l _. Qed.

Lemma preserves_bind {A B} (m : M A) (f : A -> M B) :
  preserves P m -> (forall a, preserves P (f a)) -> preserves P (m ≫= f).
Proof.
  intros Hm Hf st l Hl. unfold mbind, M_bind.
  specialize (Hm st l Hl). destruct (m st) as [[a|e] st']; simpl in *.
  - by rewrite (Hf a st' l Hl).
  - done.
Qed.

Lemma preserves_try_except {A} (m : M A) (h : exn -> M A) :
  preserves P m -> (forall e, preserves P (h e)) -> preserves P (try_except m h).
Proof.
  intros Hm Hh st l Hl. unfold try_except.
  specialize (Hm st l Hl). destruct (m st) as [[a|e] st']; simpl in *.
  - done.
  - by rewrite (Hh e st' l Hl).
Qed.

Lemma preserves_attempt {A} (m : M A) : preserves P m -> preserves P (attempt m).
Proof.
  intros Hm st l Hl. unfold attempt.
  specialize (Hm st l Hl). by destruct (m st) as [o st'].
Qed.

Lemma preserves_if {A} (b : bool) (m1 m2 : M A) :
  preserves P m1 -> preserves P m2 -> preserves P (if b then m1 else m2).
Proof. by destruct b. Qed.

Lemma preserves_for_each {A} (l : list A) (body : A -> M unit) :
  (forall x, preserves P (body x)) -> preserves P (for_each l body).
Proof.
  intros Hb. induction l as [|x l IH]; simpl.
  - apply preserves_ret.
  - apply preserves_bind; [apply Hb|]. by intros _.
Qed.

Lemma preserves_write_line (t : str) : preserves P (write_line t).
Proof. by intros st l _. Qed.

Lemma preserves_clear : preserves P clear.
Proof. by intros st l _. Qed.

Lemma preserves_record_spawn (p : spawn) : preserves P (record_spawn p).
Proof. by intros st l _. Qed.

Lemma preserves_has_key (l0 : loc) (k : str) : preserves P (has_key l0 k).
Proof. by intros st l _. Qed.

Lemma preserves_getitem (l0 : loc) (k : str) : preserves P (getitem l0 k).
Proof. intros st l _. unfold getitem. by destruct (dict_of st l0 !! k). Qed.

Lemma preserves_setitem (l0 : loc) (k v : str) :
  ~ P l0 -> preserves P (setitem l0 k v).
Proof.
  intros Hl0 st l Hl. simpl. apply lookup_insert_ne. by intros ->.
Qed.

End Frame.

#[export] Hint Resolve preserves_ret preserves_raise preserves_lift
  preserves_write_line preserves_clear preserves_record_spawn
  preserves_has_key preserves_getitem preserves_setitem : frame.

Ltac frame :=
  repeat lazymatch goal with
    | |- preserves _ (_ ≫= _) => apply preserves_bind
    | |- preserves _ (try_except _ _) => apply preserves_try_except
    | |- preserves _ (attempt _) => apply preserves_attempt
    | |- preserves _ (for_each _ _) => apply preserves_for_each
    | |- preserves _ (if _ then _ else _) => apply preserves_if
    | |- preserves _ (match ?x with _ => _ end) => destruct x
    | |- preserves _ _ => solve [auto with frame]
    | |- forall _, _ => intro
    end.

Section FrameProgram.

Context (K : constants) (H : host) (P : loc -> Prop).

Lemma preserves_expandvars (path : str) : preserves P (expandvars H path).
Proof. by intros st l _. Qed.

Lemma preserves_common_paths : preserves P (common_paths H).
Proof. by intros st l _. Qed.

Lemma preserves_add_common_paths (paths : list str) (windows_path : str) :
  preserves P (add_common_paths H paths windows_path).
Proof.
  revert windows_path. induction paths as [|path paths IH]; intros wp; simpl.
  - frame.
  - apply preserves_bind; [apply preserves_expandvars|]. intros. apply IH.
Qed.

Lemma preserves_build_command : preserves P (build_command K H).
Proof. unfold build_command, subprocess_run_which. frame. Qed.

Lemma preserves_launch (command : list str) (env : loc) :
  preserves P (launch H command env).
Proof. by intros st l _. Qed.

Lemma preserves_decode_line (data : bytes) : preserves P (decode_line K data).
Proof. unfold decode_line. frame. Qed.

Lemma preserves_read_stream (prefix : str) (read : outcome bytes) :
  preserves P (read_stream K prefix read).
Proof. unfold read_stream. frame; try apply preserves_decode_line. Qed.

Lemma preserves_gather (events : list arrival) (r : readers) :
  preserves P (gather K events r).
Proof.
  revert r. induction events as [|[s read] events IH]; intros r; cbn [gather].
  - frame.
  - destruct (running r s); [|apply IH].
    apply preserves_bind.
    + apply preserves_attempt, preserves_read_stream.
    + intros [[]|e]; [apply IH|apply IH|frame].
Qed.

Lemma preserves_show_status (return_code : Z) :
  preserves P (show_status K return_code).
Proof. unfold show_status. frame. Qed.

Lemma preserves_except_handlers (path : str) (e : exn) :
  preserves P (except_handlers K path e).
Proof. unfold except_handlers. frame. Qed.

End FrameProgram.

(** ** The run as a whole *)

Section Run.

Context (K : constants) (H : host).

Lemma run_validation_opened (st : state) :
  run_validation K H st
  = (if negb (exists_on_disk H (script_path H)) then
       write_line (format (ERR_SCRIPT_NOT_FOUND K) (script_path H))
     else try_except (try_body K H) (except_handlers K (script_path H)))
      (opened K H st).
Proof. reflexivity. Qed.

Lemma for_each_write {A} (l : list A) (keep : A -> bool) (line : A -> str)
    (st : state) :
  for_each l (fun x => if keep x then write_line (line x) else mret tt) st
  = (Return tt, logged st (line <$> List.filter keep l)).
Proof.
  revert st. induction l as [|x l IH]; intros st; cbn [for_each List.filter].
  - by rewrite logged_nil.
  - unfold mbind, M_bind. destruct (keep x).
    + change (write_line (line x) st) with (Return tt, logged st [line x]).
      cbv beta iota. by rewrite IH, logged_app.
    + apply IH.
Qed.

Lemma show_status_writes (rc : Z) (st : state) :
  show_status K rc st
  = (Return tt,
     logged st
       [ []; SEPARATOR K;
         match rc with
         | 0%Z => MSG_VALIDATION_SUCCESS K
         | 1%Z => MSG_VALIDATION_WARNINGS K
         | _ => before (MSG_VALIDATION_FAILED K) ++ str_of_int rc
                ++ after (MSG_VALIDATION_FAILED K)
         end;
         SEPARATOR K ]).
Proof.
  unfold show_status, EXIT_CODE_SUCCESS, EXIT_CODE_WARNINGS, logged.
  destruct rc as [|[p|p|]|p]; cbn [Z.eqb Pos.eqb];
    cbv [mbind M_bind write_line format]; cbn [objects log spawned];
    by rewrite <- !app_assoc.
Qed.

Lemma except_handlers_writes (path : str) (e : exn) (st : state) :
  except_handlers K path e st
  = match exc_type e with
    | FileNotFoundError =>
        (Return tt, logged st [ERR_BASH_NOT_FOUND K; ERR_BASH_HINT K])
    | PermissionError =>
        (Return tt,
         logged st [ ERR_PERMISSION_DENIED K;
                     before (ERR_PERMISSION_HINT K) ++ path
                     ++ after (ERR_PERMISSION_HINT K) ])
    | OSError | RuntimeError | ValueError | UnicodeDecodeError =>
        (Return tt,
         logged st
           ([ before (ERR_UNEXPECTED K) ++ exc_name e
              ++ after (ERR_UNEXPECTED K);
              lit "   " ++ exc_message e;
              [];
              lit "Full traceback:" ]
            ++ ((fun line => lit "   " ++ line) <$>
                  List.filter (fun line => truthy (strip line))
                    (split LF (exc_traceback e)))))
    | TimeoutExpired | Exception => (Raise e, st)
    end.
Proof.
  unfold except_handlers, isinstance.
  destruct (exc_type e); cbn [issubclass exc_class_eqb orb];
    try reflexivity;
    try (cbv [mbind M_bind write_line format logged];
         cbn [objects log spawned]; by rewrite <- !app_assoc);
    unfold mbind at 1 2 3 4, M_bind at 1 2 3 4, write_line at 1 2 3 4;
    cbv beta iota; rewrite for_each_write; unfold logged, format;
    cbn [objects log spawned]; by rewrite <- !app_assoc.
Qed.

End Run.

(** ** The environment and the command line *)

Lemma add_common_paths_front (H : host) (paths : list str) (wp : str)
    (st : state) :
  add_common_paths H paths wp st
  = (Return (front (rev (prepended H (dict_of st environ_loc) paths wp)) ++ wp),
     st).
Proof.
  revert wp. induction paths as [|path paths IH]; intros wp; [done|].
  cbn [add_common_paths prepended]. unfold mbind, M_bind, expandvars.
  rewrite IH. unfold add_path.
  destruct (exists_on_disk H (expand H (dict_of st environ_loc) path)
            && negb (contains (expand H (dict_of st environ_loc) path) wp));
    [|done].
  do 2 f_equal. cbn [rev]. unfold front. rewrite flat_map_app. simpl.
  by rewrite <- !app_assoc.
Qed.

Lemma prepended_sublist (H : host) (environ : gmap str str) (paths : list str)
    (wp : str) :
  sublist (prepended H environ paths wp) (expand H environ <$> paths).
Proof.
  revert wp. induction paths as [|path paths IH]; intros wp; simpl.
  - constructor.
  - destruct (exists_on_disk H (expand H environ path)
              && negb (contains (expand H environ path) wp)).
    + apply sublist_skip, IH.
    + apply sublist_cons, IH.
Qed.

(** Off Windows, the command line gets [stdbuf] in front whenever the
    call of [which] returns, whatever its return code. *)
Lemma build_command_which_returns (K : constants) (H : host) (st : state)
    (rc : Z) :
  is_windows H = false ->
  which_stdbuf H = Return rc ->
  build_command K H st
  = (Return ([lit "stdbuf"; lit "-o0"; lit "-e0"]
             ++ [lit "bash"] ++ BASH_FLAGS K ++ [VALIDATION_SCRIPT_PATH K]),
     {| objects := objects st; log := log st;
        spawned := spawned st
                   ++ [ {| argv := [lit "which"; lit "stdbuf"]; cwd := None;
                           env_passed := None |} ] |}).
Proof.
  intros Hw Hrc. unfold build_command. rewrite Hw. cbn [negb].
  unfold try_except, subprocess_run_which, mbind, M_bind, record_spawn, lift.
  by rewrite Hrc.
Qed.

(** Building the environment always returns, and writes neither to the
    log nor to the list of processes. *)
Lemma build_env_returns (H : host) (st : state) :
  exists l st',
    build_env H st = (Return l, st')
    /\ log st' = log st /\ spawned st' = spawned st.
Proof.
  unfold build_env.
  unfold mbind, M_bind, dict_copy, setitem, has_key, getitem, common_paths,
    mret, M_ret.
  cbv beta iota zeta. destruct (is_windows H); [|by eexists _, _].
  cbn [objects log spawned].
  match goal with
  | |- context [bool_decide (is_Some ?x)] =>
      destruct (bool_decide_reflect (is_Some x)) as [[v Hv]|Hn]
  end; [|by eexists _, _].
  rewrite Hv. cbv beta iota. rewrite add_common_paths_front.
  by eexists _, _.
Qed.

Lemma build_command_log (K : constants) (H : host) (st : state) :
  log (build_command K H st).2 = log st.
Proof.
  unfold build_command. destruct (is_windows H); [done|]. cbn [negb].
  unfold try_except, subprocess_run_which, mbind, M_bind, record_spawn, lift.
  destruct (which_stdbuf H) as [rc|e]; [done|]. cbv beta iota.
  by destruct (isinstance e TimeoutExpired || isinstance e FileNotFoundError).
Qed.

(** Before the status, the run writes nothing but the lines of the child. *)
Lemma run_child_log (K : constants) (H : host) (st : state) :
  exists lines,
    log (run_child K H st).2 = log st ++ lines
    /\ Forall (child_output K H) lines.
Proof.
  destruct (build_env_returns H st) as (l & st' & Hb & Hlog & _).
  unfold run_child. unfold mbind at 1, M_bind at 1. rewrite Hb.
  pose proof (build_command_log K H st') as Hc.
  unfold mbind at 1, M_bind at 1.
  destruct (build_command K H st') as [[cmd|e] st2]; simpl in Hc.
  2: { exists []. split; [|constructor]. simpl. rewrite app_nil_r. congruence. }
  unfold mbind at 1, M_bind at 1. unfold launch at 1.
  destruct (create_subprocess_exec H _) as [p|e] eqn:Hp.
  2: { exists []. split; [|constructor]. simpl. rewrite app_nil_r. congruence. }
  unfold mbind at 1, M_bind at 1.
  match goal with
  | |- context [gather K (arrivals p) both_running ?s] =>
      destruct (gather_log K (arrivals p) both_running s) as (lines & Hg & Hall);
      destruct (gather K (arrivals p) both_running s) as [[[]|e] st3]
  end; simpl in Hg; subst st3; exists lines.
  - split.
    + unfold lift. simpl. congruence.
    + eapply Forall_impl; [exact Hall|]. intros x Hx. by eexists _, p.
  - split.
    + simpl. congruence.
    + eapply Forall_impl; [exact Hall|]. intros x Hx. by eexists _, p.
Qed.

(** C5: when the validation script is not on disk, the run writes the
    script-not-found message with the path in it and returns; the check
    comes before any process creation, so the list of created processes
    is what it was. *)
Theorem missing_script_reported (K : constants) (H : host) (st : state) :
  exists_on_disk H (script_path H) = false ->
  run_validation K H st
  = (Return tt,
     {| objects := objects st;
        log := preamble K H
               ++ [ before (ERR_SCRIPT_NOT_FOUND K) ++ script_path H
                    ++ after (ERR_SCRIPT_NOT_FOUND K) ];
        spawned := spawned st |}).
Proof. intros Hex. rewrite run_validation_opened, Hex. reflexivity. Qed.

Lemma missing_script_reported_witness :
  run_validation Sample.K Sample.linux_without_script Sample.start
  = (Return tt,
     {| objects := objects Sample.start;
        log := preamble Sample.K Sample.linux_without_script
               ++ [ lit "Script not found: /repo/scripts/deploy/00_validate_prerequisites/00_validate_prerequisites.sh" ];
        spawned := [] |}).
Proof.
  apply (missing_script_reported Sample.K Sample.linux_without_script Sample.start).
  reflexivity.
Defined.

(** ** [os.environ] *)

Lemma objects_bind {A B} (P : loc -> Prop) (m : M A) (f : A -> M B)
    (st : state) (l : loc) :
  (forall a, preserves P (f a)) -> P l ->
  objects ((m ≫= f) st).2 !! l = objects (m st).2 !! l.
Proof.
  intros Hf Hl. unfold mbind, M_bind.
  destruct (m st) as [[a|e] st']; simpl; [|done]. by apply Hf.
Qed.

Lemma objects_try_except {A} (P : loc -> Prop) (m : M A) (h : exn -> M A)
    (st : state) (l : loc) :
  (forall e, preserves P (h e)) -> P l ->
  objects (try_except m h st).2 !! l = objects (m st).2 !! l.
Proof.
  intros Hh Hl. unfold try_except.
  destruct (m st) as [[a|e] st']; simpl; [done|]. by apply Hh.
Qed.

(** The copy is a new object: building the environment of the child
    writes to the copy only. *)
Lemma build_env_frame (H : host) (st : state) (l : loc) :
  is_Some (objects st !! l) ->
  objects (build_env H st).2 !! l = objects st !! l.
Proof.
  intros Hl. unfold build_env.
  set (l' := fresh (dom (objects st))).
  assert (Hne : l <> l').
  { intros ->. apply elem_of_dom in Hl. by apply is_fresh in Hl. }
  unfold mbind at 1, M_bind at 1. unfold dict_copy at 1. cbv beta iota zeta.
  fold l'.
  match goal with
  | |- objects (?m ?s).2 !! _ = _ =>
      assert (Hp : preserves (fun x => x <> l') m)
  end.
  { frame; try apply preserves_common_paths;
      try apply preserves_add_common_paths.
    all: apply preserves_setitem; by intros Hx. }
  rewrite (Hp _ l Hne). simpl. by apply lookup_insert_ne.
Qed.

(** C10: a run does not change [os.environ]: the environment of the
    child is built on a copy, which is another object, and nothing else
    in the run writes to a dictionary; the mapping of the launching
    process is after the run what it was before. *)
Theorem environ_untouched (K : constants) (H : host) (st : state) :
  is_Some (objects st !! environ_loc) ->
  objects (run_validation K H st).2 !! environ_loc = objects st !! environ_loc.
Proof.
  intros Hl. rewrite run_validation_opened.
  destruct (exists_on_disk H (script_path H)); cbn [negb]; [|done].
  rewrite (objects_try_except (fun _ => True)); [| |done].
  2: { intros e. apply preserves_except_handlers. }
  unfold try_body.
  rewrite (objects_bind (fun _ => True)); [| |done].
  2: { intros rc. apply preserves_show_status. }
  unfold run_child.
  rewrite (objects_bind (fun _ => True)); [| |done].
  2: { intros env. frame; try apply preserves_build_command;
         try apply preserves_launch; try apply preserves_gather. }
  by rewrite build_env_frame.
Qed.

Lemma environ_untouched_witness :
  objects (run_validation Sample.K Sample.windows Sample.start).2 !! environ_loc
  = Some Sample.environ.
Proof.
  apply (environ_untouched Sample.K Sample.windows Sample.start).
  vm_compute. eexists. reflexivity.
Defined.

(** ** The command line *)

(** C3: on Linux, with [which] running and ending with status 1 because
    [stdbuf] is not installed, the command line still gets [stdbuf -o0
    -e0] in front; the launch of that command line then fails and the run
    reports that bash was not found. *)
Theorem stdbuf_prepended_though_absent :
  is_windows Sample.linux_without_stdbuf = false
  /\ which_stdbuf Sample.linux_without_stdbuf = Return 1%Z
  /\ (build_command Sample.K Sample.linux_without_stdbuf Sample.start).1
     = Return [ lit "stdbuf"; lit "-o0"; lit "-e0"; lit "bash";
                VALIDATION_SCRIPT_PATH Sample.K ]
  /\ log (run_validation Sample.K Sample.linux_without_stdbuf Sample.start).2
     = preamble Sample.K Sample.linux_without_stdbuf
       ++ [lit "Bash not found"; lit "Install Git Bash or WSL"].
Proof. repeat split; vm_compute; reflexivity. Qed.

(** ** The loop over [common_paths] *)

(** C4, as the spec words it, fails on a Windows host where the Azure CLI
    and Node.js are installed and PATH does not list them: the Azure CLI
    directory is first in the list and Node.js third, both are prepended,
    and in the result Node.js is at offset 0 and the Azure CLI behind
    it. *)
Lemma earlier_entries_not_in_front :
  add_common_paths Sample.windows
    (common_paths_in Sample.windows Sample.environ) (lit "C:\Windows")
    Sample.start
  = (Return (lit "C:\Program Files\nodejs;C:\Program Files\Azure CLI\wbin;C:\Windows"),
     Sample.start)
  /\ ~ earlier_nearer_front Sample.windows Sample.environ
         (common_paths_in Sample.windows Sample.environ) (lit "C:\Windows")
         (lit "C:\Program Files\nodejs;C:\Program Files\Azure CLI\wbin;C:\Windows").
Proof.
  split; [by vm_compute|].
  intros Hc.
  specialize (Hc 0%nat 2%nat Sample.azure_cli Sample.nodejs 24%nat 0%nat).
  assert (Hlt : (24 < 0)%nat); [|lia].
  apply Hc; try (vm_compute; reflexivity); try lia.
  - vm_compute. left.
  - vm_compute. right. left.
Qed.

(** C4, amended: the loop goes through the list in its order and puts
    each directory it adds at the very front of the value built so far.
    The result is therefore the added directories in the reverse of the
    list order, each followed by a semicolon, and then the starting
    value: the later a directory is in the list, the nearer it is to the
    front. *)
Theorem later_entries_end_up_in_front (H : host) (paths : list str)
    (windows_path : str) (st : state) :
  add_common_paths H paths windows_path st
  = (Return (front (rev (prepended H (dict_of st environ_loc) paths windows_path))
             ++ windows_path),
     st)
  /\ sublist (prepended H (dict_of st environ_loc) paths windows_path)
       (expand H (dict_of st environ_loc) <$> paths).
Proof.
  split; [apply add_common_paths_front | apply prepended_sublist].
Qed.


(** ** Sample runs *)

Example run_on_linux :
  log (run_validation Sample.K Sample.linux Sample.start).2
  = [ lit "============"; lit "Running prerequisite validation...";
      lit "============"; [];
      [0x1F50D] ++ lit " Environment Diagnostics:";
      lit "   OS: linux"; lit "   Python: 3.11.4"; [];
      lit "checking az";
      STDERR_PREFIX ++ lit "az: " ++ [REPLACEMENT_CHARACTER];
      lit "done";
      []; lit "============"; lit "Validation failed with exit code 2";
      lit "============" ]
  /\ argv <$> spawned (run_validation Sample.K Sample.linux Sample.start).2
     = [ [lit "which"; lit "stdbuf"];
         [ lit "stdbuf"; lit "-o0"; lit "-e0"; lit "bash";
           VALIDATION_SCRIPT_PATH Sample.K ] ].
Proof. split; vm_compute; reflexivity. Qed.

(** The line that stdout gives after the failed read of stderr is not in
    the log when the run returns: its reader was left behind. *)
Example run_with_read_error :
  log (run_validation Sample.K Sample.linux_read_error Sample.start).2
  = preamble Sample.K Sample.linux_read_error
    ++ [ lit "checking az";
         lit "Unexpected error: ConnectionResetError";
         lit "   [Errno 104] Connection reset by peer";
         [];
         lit "Full traceback:";
         lit "   Traceback (most recent call last):";
         lit "     File deploy_tui.py, line 240, in read_stream";
         lit "   ConnectionResetError: [Errno 104] Connection reset by peer" ].
Proof. vm_compute. reflexivity. Qed.

Example run_on_windows :
  (fun sp => (argv sp,
              (fun env : gmap str str =>
                 (env !! lit "PATH", env !! lit "ORIGINAL_PATH",
                  env !! lit "PYTHONUNBUFFERED", env !! lit "PYTHONIOENCODING"))
              <$> env_passed sp))
  <$> spawned (run_validation Sample.K Sample.windows Sample.start).2
  = [ ( [lit "bash"; VALIDATION_SCRIPT_PATH Sample.K],
        Some (Some (lit "C:\Program Files\nodejs;C:\Program Files\Azure CLI\wbin;C:\Windows"),
              Some (lit "C:\Windows"),
              Some (lit "1"),
              Some (lit "utf-8")) ) ]
  /\ Sample.environ !! lit "PYTHONUNBUFFERED" = None.
Proof. split; vm_compute; reflexivity. Qed.

(** * Further properties *)

(** ** Substrings *)

Lemma contains_unfold (sub s : str) :
  contains sub s
  = if startswith s sub then true
    else match s with
         | [] => false
         | _ :: s' => contains sub s'
         end.
Proof. by destruct s. Qed.

Lemma contains_self (d s : str) : contains d (d ++ s) = true.
Proof. by rewrite contains_unfold, startswith_app. Qed.

Lemma contains_prepend (d x s : str) :
  contains d s = true -> contains d (x ++ s) = true.
Proof.
  intros Hs. induction x as [|c x IH]; [done|].
  simpl app. rewrite contains_unfold.
  destruct (startswith (c :: x ++ s) d); [done|]. exact IH.
Qed.

(** ** The loop over [common_paths], continued *)

Lemma add_path_contains (H : host) (d windows_path : str) :
  exists_on_disk H d = true -> contains d (add_path H d windows_path) = true.
Proof.
  intros Hd. unfold add_path. rewrite Hd. cbn [andb].
  destruct (contains d windows_path) eqn:E; cbn [negb]; [done|].
  apply contains_self.
Qed.

Lemma add_path_keeps (H : host) (d x windows_path : str) :
  contains d windows_path = true -> contains d (add_path H x windows_path) = true.
Proof.
  intros Hd. unfold add_path.
  destruct (exists_on_disk H x && negb (contains x windows_path)); [|done].
  by apply contains_prepend, (contains_prepend d [SEMICOLON]).
Qed.

Lemma add_common_paths_keeps (H : host) (paths : list str) (d windows_path : str)
    (st : state) :
  contains d windows_path = true ->
  exists result,
    add_common_paths H paths windows_path st = (Return result, st)
    /\ contains d result = true.
Proof.
  revert windows_path. induction paths as [|path paths IH]; intros wp Hd.
  - by exists wp.
  - cbn [add_common_paths]. unfold mbind, M_bind, expandvars.
    apply IH. by apply add_path_keeps.
Qed.

Lemma add_common_paths_contains (H : host) (paths : list str) (path windows_path : str)
    (st : state) :
  path ∈ paths ->
  exists_on_disk H (expand H (dict_of st environ_loc) path) = true ->
  exists result,
    add_common_paths H paths windows_path st = (Return result, st)
    /\ contains (expand H (dict_of st environ_loc) path) result = true.
Proof.
  intros Hin Hd. revert windows_path.
  induction paths as [|p paths IH]; intros wp; [by apply elem_of_nil in Hin|].
  cbn [add_common_paths]. unfold mbind, M_bind, expandvars.
  apply elem_of_cons in Hin as [<- | Hin].
  - apply add_common_paths_keeps. by apply add_path_contains.
  - by apply IH.
Qed.

(** X1: after the loop, every listed directory that is on disk occurs in
    the PATH value, whatever the value was before. *)
Theorem listed_directory_in_path (H : host) (paths : list str) (path windows_path : str)
    (st : state) :
  path ∈ paths ->
  exists_on_disk H (expand H (dict_of st environ_loc) path) = true ->
  exists result,
    add_common_paths H paths windows_path st = (Return result, st)
    /\ contains (expand H (dict_of st environ_loc) path) result = true.
Proof. apply add_common_paths_contains. Qed.

Lemma listed_directory_in_path_witness :
  exists result,
    add_common_paths Sample.windows
      (common_paths_in Sample.windows Sample.environ) (lit "C:\Windows")
      Sample.start
    = (Return result, Sample.start)
    /\ contains (expand Sample.windows (dict_of Sample.start environ_loc)
                   Sample.nodejs) result = true.
Proof.
  apply (listed_directory_in_path Sample.windows
           (common_paths_in Sample.windows Sample.environ) Sample.nodejs).
  - vm_compute. do 2 right. left.
  - reflexivity.
Defined.

Lemma add_common_paths_unchanged (H : host) (paths : list str) (windows_path : str)
    (st : state) :
  Forall (fun path =>
            exists_on_disk H (expand H (dict_of st environ_loc) path) = false
            \/ contains (expand H (dict_of st environ_loc) path) windows_path
               = true) paths ->
  add_common_paths H paths windows_path st = (Return windows_path, st).
Proof.
  induction 1 as [|path paths Hp _ IH]; [done|].
  cbn [add_common_paths]. unfold mbind, M_bind, expandvars, add_path.
  destruct Hp as [-> | ->]; [done|]. by rewrite andb_false_r.
Qed.

(** X2: when every listed directory is missing from disk or occurs in the
    PATH value already, the loop gives the value back as it was; an empty
    list is one such case. *)
Theorem nothing_to_add (H : host) (paths : list str) (windows_path : str) (st : state) :
  Forall (fun path =>
            exists_on_disk H (expand H (dict_of st environ_loc) path) = false
            \/ contains (expand H (dict_of st environ_loc) path) windows_path
               = true) paths ->
  add_common_paths H paths windows_path st = (Return windows_path, st).
Proof. apply add_common_paths_unchanged. Qed.

Lemma nothing_to_add_witness :
  add_common_paths Sample.windows [Sample.nodejs; lit "C:\Program Files\Docker"]
    (lit "C:\Program Files\nodejs;C:\Windows") Sample.start
  = (Return (lit "C:\Program Files\nodejs;C:\Windows"), Sample.start).
Proof.
  apply (nothing_to_add Sample.windows).
  apply List.Forall_cons; [right; reflexivity|].
  apply List.Forall_cons; [left; reflexivity|].
  apply List.Forall_nil.
Defined.

(** X3: the loop is idempotent: run again on its own result, it adds
    nothing. *)
Theorem augmentation_idempotent (H : host) (paths : list str) (windows_path result : str)
    (st : state) :
  add_common_paths H paths windows_path st = (Return result, st) ->
  add_common_paths H paths result st = (Return result, st).
Proof.
  intros Hrun. apply add_common_paths_unchanged.
  apply Forall_forall. intros path Hin.
  destruct (exists_on_disk H (expand H (dict_of st environ_loc) path)) eqn:Hd;
    [right|by left].
  destruct (add_common_paths_contains H paths path windows_path st Hin Hd)
    as (r & Hr & Hc).
  rewrite Hrun in Hr. by injection Hr as <-.
Qed.


(** ** The environment of the child *)

Lemma bind_run {A B} (m : M A) (f : A -> M B) (st st' : state) (a : A) :
  m st = (Return a, st') -> (m ≫= f) st = f a st'.
Proof. intros Hm. unfold mbind, M_bind. by rewrite Hm. Qed.

Lemma dict_of_with_env (st : state) (l : loc) (env : gmap str str) :
  dict_of (with_env st l env) l = env.
Proof. unfold dict_of, with_env. simpl. by rewrite lookup_insert_eq. Qed.

Lemma dict_of_with_env_ne (st : state) (l l' : loc) (env : gmap str str) :
  l <> l' -> dict_of (with_env st l env) l' = dict_of st l'.
Proof.
  intros Hne. unfold dict_of, with_env. simpl. by rewrite lookup_insert_ne.
Qed.

Lemma setitem_with_env (st : state) (l : loc) (env : gmap str str)
    (k v : str) :
  setitem l k v (with_env st l env) = (Return tt, with_env st l (<[k := v]> env)).
Proof.
  unfold setitem. rewrite dict_of_with_env. f_equal.
  unfold with_env. simpl. by rewrite insert_insert_eq.
Qed.

Lemma fresh_not_environ (st : state) :
  is_Some (objects st !! environ_loc) ->
  fresh (dom (objects st)) <> environ_loc.
Proof.
  intros Hl Heq. apply elem_of_dom in Hl. rewrite <- Heq in Hl.
  by apply is_fresh in Hl.
Qed.

(** What [build_env] does to the state: it adds one object, the
    environment of the child. *)
Lemma build_env_spec (H : host) (st : state) :
  is_Some (objects st !! environ_loc) ->
  build_env H st
  = (Return (fresh (dom (objects st))),
     with_env st (fresh (dom (objects st)))
       (child_environment H (dict_of st environ_loc))).
Proof.
  intros Hl. pose proof (fresh_not_environ st Hl) as Hne.
  set (l := fresh (dom (objects st))) in *.
  set (environ := dict_of st environ_loc).
  unfold build_env, child_environment.
  rewrite (bind_run _ _ st (with_env st l environ) l) by done.
  rewrite (bind_run _ _ _ _ tt (setitem_with_env _ _ _ _ _)).
  set (e1 := <[lit "PYTHONUNBUFFERED" := lit "1"]> environ).
  destruct (is_windows H); [|done].
  cbv zeta.
  set (e2 := <[lit "PYTHONIOENCODING" := lit "utf-8"]> e1).
  rewrite (bind_run _ _ (with_env st l e1)
           (with_env st l
              (match e2 !! lit "PATH" with
               | Some wp =>
                   <[lit "PATH" :=
                       front (rev (prepended H environ
                                     (common_paths_in H environ) wp)) ++ wp]>
                     (<[lit "ORIGINAL_PATH" := wp]> e2)
               | None => e2
               end)) tt); [done|].
  rewrite (bind_run _ _ _ _ tt (setitem_with_env _ _ _ _ _)). fold e2.
  unfold mbind at 1, M_bind at 1, has_key at 1.
  rewrite dict_of_with_env.
  destruct (e2 !! lit "PATH") as [wp|] eqn:Hp.
  - rewrite bool_decide_eq_true_2 by by eexists.
    unfold mbind at 1, M_bind at 1, getitem at 1.
    rewrite dict_of_with_env, Hp.
    rewrite (bind_run _ _ _ _ tt (setitem_with_env _ _ _ _ _)).
    unfold mbind at 1, M_bind at 1, common_paths at 1.
    rewrite dict_of_with_env_ne by done.
    unfold mbind at 1, M_bind at 1.
    rewrite add_common_paths_front.
    rewrite dict_of_with_env_ne by done.
    apply setitem_with_env.
  - rewrite bool_decide_eq_false_2; [done|]. by intros [? ?].
Qed.

(** ** Decoding, continued *)

Lemma decode_loop_strict_replace (c : codec) (skip : nat) (data : bytes)
    (t : str) :
  decode_loop c strict skip data = Some t ->
  decode_loop c replace skip data = Some t.
Proof.
  revert skip t. induction data as [|b data IH]; intros skip t; simpl; [done|].
  destruct skip as [|k]; [|apply IH].
  destruct (next c (b :: data)) as [cp used|used]; [|done].
  destruct (decode_loop c strict (pred used) data) as [t'|] eqn:E; [|done].
  intros [= <-]. by rewrite (IH _ _ E).
Qed.

Lemma decode_line_replace (K : constants) (data : bytes) :
  exists t,
    decode (SUBPROCESS_ENCODING K) replace data = Return t
    /\ forall st, decode_line K data st = (Return (rstrip [LF; CR] t), st).
Proof.
  destruct (decode (SUBPROCESS_ENCODING K) strict data) as [t|e] eqn:E.
  - exists t. split.
    + unfold decode in *.
      destruct (decode_loop (SUBPROCESS_ENCODING K) strict 0 data) as [t'|] eqn:E';
        [|done].
      injection E as ->. by rewrite (decode_loop_strict_replace _ _ _ _ E').
    + intros st. by apply decode_line_wellformed.
  - destruct (decode_malformed _ _ _ E) as (_ & t & Ht & _).
    exists t. split; [done|]. intros st.
    destruct (decode_line_malformed K data e st E) as (t' & Ht' & _ & Hl).
    rewrite Ht in Ht'. by injection Ht' as <-.
Qed.

(** ** The run seen from outside *)

Lemma logged_spawning (st : state) (sps : list spawn) (lines : list str) :
  logged (spawning st sps) lines = spawning (logged st lines) sps.
Proof. done. Qed.

Lemma spawning_nil (st : state) : spawning st [] = st.
Proof. destruct st. unfold spawning. simpl. by rewrite app_nil_r. Qed.

Lemma spawning_app (st : state) (s1 s2 : list spawn) :
  spawning (spawning st s1) s2 = spawning st (s1 ++ s2).
Proof. unfold spawning. simpl. by rewrite app_assoc. Qed.

Lemma read_stream_outside (K : constants) (prefix : str) (read : outcome bytes) :
  exists o lines,
    forall st, read_stream K prefix read st = (o, logged st lines).
Proof.
  destruct read as [[|b data]|e].
  - exists (Return false), []. intros st. by rewrite logged_nil.
  - destruct (decode_line_replace K (b :: data)) as (t & _ & Hl).
    exists (Return true),
      (if truthy (rstrip [LF; CR] t) then [prefix ++ rstrip [LF; CR] t] else []).
    intros st.
    rewrite (read_stream_line K prefix (b :: data) _ st ltac:(done) (Hl st)).
    destruct (truthy (rstrip [LF; CR] t)); [done|]. by rewrite logged_nil.
  - exists (Raise e), []. intros st. by rewrite logged_nil.
Qed.

Lemma gather_outside (K : constants) (events : list arrival) (r : readers) :
  exists o lines, forall st, gather K events r st = (o, logged st lines).
Proof.
  revert r. induction events as [|[s read] events IH]; intros r.
  - exists (Return tt), []. intros st. by rewrite logged_nil.
  - cbn [gather]. destruct (running r s); [|apply IH].
    destruct (read_stream_outside K (prefix_of_stream s) read)
      as (o1 & lines1 & Hread).
    assert (Hnext : forall r', exists o lines, forall st,
              gather K events r' (logged st lines1) = (o, logged st lines)).
    { intros r'. destruct (IH r') as (o & lines & Hg).
      exists o, (lines1 ++ lines). intros st. by rewrite Hg, logged_app. }
    destruct o1 as [[]|e].
    + destruct (Hnext r) as (o & lines & Hg). exists o, lines. intros st.
      unfold mbind, M_bind, attempt. by rewrite Hread.
    + destruct (Hnext (finish r s)) as (o & lines & Hg).
      exists o, lines. intros st.
      unfold mbind, M_bind, attempt. by rewrite Hread.
    + exists (Raise e), lines1. intros st.
      unfold mbind, M_bind, attempt. by rewrite Hread.
Qed.

Lemma gather_relay (K : constants) (events : list arrival) (r : readers)
    (st : state) :
  gather K events r st
  = ((relay K events r).1, logged st (relay K events r).2).
Proof.
  destruct (gather_outside K events r) as (o & lines & Hg).
  unfold relay. by rewrite !Hg.
Qed.

Lemma build_command_spec (K : constants) (H : host) (st : state) :
  build_command K H st = (command_result K H, spawning st (probes H)).
Proof.
  unfold build_command, command_result, probes, bash_command.
  destruct (is_windows H); cbn [negb].
  - by rewrite spawning_nil.
  - unfold try_except, subprocess_run_which, mbind, M_bind, record_spawn, lift.
    destruct (which_stdbuf H) as [rc|e]; [done|]. cbv beta iota.
    by destruct (isinstance e TimeoutExpired || isinstance e FileNotFoundError).
Qed.

Lemma run_child_spec (K : constants) (H : host) (st : state) :
  is_Some (objects st !! environ_loc) ->
  run_child K H st
  = ((child_run K H (dict_of st environ_loc)).1.1,
     logged
       (spawning
          (with_env st (fresh (dom (objects st)))
             (child_environment H (dict_of st environ_loc)))
          (child_run K H (dict_of st environ_loc)).2)
       (child_run K H (dict_of st environ_loc)).1.2).
Proof.
  intros Hl. unfold run_child, child_run.
  rewrite (bind_run _ _ _ _ _ (build_env_spec H st Hl)).
  set (l := fresh (dom (objects st))).
  set (cenv := child_environment H (dict_of st environ_loc)).
  unfold mbind at 1, M_bind at 1. rewrite build_command_spec.
  destruct (command_result K H) as [command|e]; [|by rewrite logged_nil].
  unfold mbind at 1, M_bind at 1, launch at 1.
  replace (dict_of (spawning (with_env st l cenv) (probes H)) l) with cenv
    by (symmetry; apply dict_of_with_env).
  destruct (create_subprocess_exec H _) as [process|e] eqn:Hp; cbn [fst snd].
  - unfold mbind at 1, M_bind at 1. rewrite gather_relay.
    destruct (relay K (arrivals process) both_running) as [[[]|e] lines];
      cbn [fst snd]; unfold lift, logged, spawning; simpl.
    all: by rewrite <- app_assoc.
  - unfold logged, spawning. simpl. by rewrite <- !app_assoc, app_nil_r.
Qed.

Lemma closing_spec (K : constants) (path : str) (o : outcome Z) (st : state) :
  match o with
  | Return return_code => show_status K return_code
  | Raise e => except_handlers K path e
  end st
  = ((closing K path o).1, logged st (closing K path o).2).
Proof.
  unfold closing. destruct o as [rc|e].
  - by rewrite !show_status_writes.
  - rewrite !except_handlers_writes.
    destruct (exc_type e); simpl; by rewrite ?logged_nil.
Qed.

Lemma run_validation_spec (K : constants) (H : host) (st : state) :
  is_Some (objects st !! environ_loc) ->
  exists_on_disk H (script_path H) = true ->
  run_validation K H st
  = ((closing K (script_path H) (child_run K H (dict_of st environ_loc)).1.1).1,
     logged
       (spawning
          (with_env (opened K H st) (fresh (dom (objects st)))
             (child_environment H (dict_of st environ_loc)))
          (child_run K H (dict_of st environ_loc)).2)
       ((child_run K H (dict_of st environ_loc)).1.2
        ++ (closing K (script_path H)
              (child_run K H (dict_of st environ_loc)).1.1).2)).
Proof.
  intros Hl Hex. rewrite run_validation_opened, Hex. cbn [negb].
  unfold try_except, try_body, mbind, M_bind.
  rewrite (run_child_spec K H (opened K H st) Hl).
  change (dict_of (opened K H st) environ_loc) with (dict_of st environ_loc).
  change (objects (opened K H st)) with (objects st).
  destruct ((child_run K H (dict_of st environ_loc)).1.1) as [rc|e] eqn:E.
  - cbv beta iota. rewrite show_status_writes. cbv beta iota.
    unfold closing. rewrite show_status_writes. simpl fst. simpl snd.
    rewrite logged_app. do 2 f_equal.
  - cbv beta iota.
    rewrite (closing_spec K (script_path H) (Raise e)). by rewrite logged_app.
Qed.

Lemma augmentation_idempotent_witness :
  add_common_paths Sample.windows
    (common_paths_in Sample.windows Sample.environ)
    (lit "C:\Program Files\nodejs;C:\Program Files\Azure CLI\wbin;C:\Windows")
    Sample.start
  = (Return (lit "C:\Program Files\nodejs;C:\Program Files\Azure CLI\wbin;C:\Windows"),
     Sample.start).
Proof.
  apply (augmentation_idempotent Sample.windows
           (common_paths_in Sample.windows Sample.environ) (lit "C:\Windows")).
  vm_compute. reflexivity.
Defined.

(** ** The relay, continued *)

(** X4: decoding a line in two steps, strictly first and with the
    configured handler after a [UnicodeDecodeError], gives what one
    decoding with the handler [replace] gives: it never raises, and its
    result is that text without the line feeds and carriage returns at
    its end. *)
Theorem decoding_is_replace (K : constants) (data : bytes) :
  exists t,
    decode (SUBPROCESS_ENCODING K) replace data = Return t
    /\ forall st, decode_line K data st = (Return (rstrip [LF; CR] t), st).
Proof. apply decode_line_replace. Qed.

(** X5: whatever arrives, lines, ends of input or errors, the calls of
    [write_line] that the relay makes are, in their order, the calls for
    some of the arrivals in their order, one call for one result of
    [readline]: each text is the prefix of the stream of its arrival
    followed by the bytes of that arrival, decoded with [replace] and
    without the line feeds and carriage returns at the end, and that
    text is not empty and does not end with a line feed or a carriage
    return. *)
Theorem relay_lines_clean (K : constants) (events : list arrival) (r : readers)
    (st : state) :
  exists (kept : list (stream * bytes)) (lines : list str),
    (gather K events r st).2 = logged st lines
    /\ sublist ((fun k => (k.1, Return k.2)) <$> kept) events
    /\ Forall2 (fun k line =>
                  exists t,
                    decode (SUBPROCESS_ENCODING K) replace k.2 = Return t
                    /\ line = prefix_of_stream k.1 ++ rstrip [LF; CR] t
                    /\ rstrip [LF; CR] t <> []
                    /\ forall x, last (rstrip [LF; CR] t) = Some x ->
                                 x <> LF /\ x <> CR) kept lines.
Proof.
  revert r st. induction events as [|[s read] events IH]; intros r st.
  - exists [], []. rewrite logged_nil. split; [done|].
    split; constructor.
  - assert (Hskip : forall r' st', exists kept lines,
              (gather K events r' st').2 = logged st' lines
              /\ sublist ((fun k => (k.1, Return k.2)) <$> kept)
                   ((s, read) :: events)
              /\ Forall2 (fun k line =>
                   exists t,
                     decode (SUBPROCESS_ENCODING K) replace k.2 = Return t
                     /\ line = prefix_of_stream k.1 ++ rstrip [LF; CR] t
                     /\ rstrip [LF; CR] t <> []
                     /\ forall x, last (rstrip [LF; CR] t) = Some x ->
                                  x <> LF /\ x <> CR) kept lines).
    { intros r' st'. destruct (IH r' st') as (kept & lines & Hl & Hsub & Hall).
      exists kept, lines. split; [done|]. split; [|done].
      by apply sublist_cons. }
    cbn [gather]. destruct (running r s) eqn:Hrun; [|apply Hskip].
    destruct read as [[|b data]|e].
    + unfold mbind, M_bind, attempt, read_stream, lift. simpl. apply Hskip.
    + destruct (decode_line_replace K (b :: data)) as (t & Hdec & Hline).
      pose proof (gather_line K s (b :: data) _ events r st
                    ltac:(done) (Hline st)) as Hg.
      cbn [gather] in Hg. rewrite Hrun in Hg. rewrite Hg. cbn [andb].
      destruct (rstrip [LF; CR] t) as [|c line] eqn:Ht; [apply Hskip|].
      cbn [truthy].
      destruct (IH r (logged st [prefix_of_stream s ++ c :: line]))
        as (kept & lines & Hl & Hsub & Hall).
      exists ((s, b :: data) :: kept),
        ((prefix_of_stream s ++ c :: line) :: lines). split.
      { rewrite Hl. by rewrite logged_app. }
      split; [rewrite fmap_cons; by apply sublist_skip|].
      constructor; [|done].
      exists t. cbn [fst snd]. split; [done|]. rewrite Ht.
      split; [done|]. split; [done|].
      intros x Hx. rewrite <- Ht in Hx. apply rstrip_last in Hx.
      split; intros ->; apply Hx; [by left|right; by left].
    + unfold mbind, M_bind, attempt, read_stream, lift, raise. simpl.
      exists [], []. rewrite logged_nil. split; [done|].
      split; [apply sublist_nil_l|constructor].
Qed.

Lemma gather_not_running (K : constants) (s : stream) (rest : list arrival)
    (r : readers) (st : state) :
  running r s = false ->
  gather K rest r st = gather K (List.filter (other_stream s) rest) r st.
Proof.
  revert r st. induction rest as [|[s' read] rest IH]; intros r st Hr; [done|].
  cbn [List.filter]. unfold other_stream at 1. cbn [fst].
  destruct s, s'; cbn [gather].
  - change (running r Stdout) with (stdout_running r).
    change (running r Stdout) with (stdout_running r) in Hr.
    rewrite Hr. by apply IH.
  - destruct (running r Stderr); [|by apply IH].
    unfold mbind, M_bind, attempt.
    destruct (read_stream K (prefix_of_stream Stderr) read st) as [[[]|e] st'];
      [by apply IH|by apply IH|done].
  - destruct (running r Stdout); [|by apply IH].
    unfold mbind, M_bind, attempt.
    destruct (read_stream K (prefix_of_stream Stdout) read st) as [[[]|e] st'];
      [by apply IH|by apply IH|done].
  - change (running r Stderr) with (stderr_running r).
    change (running r Stderr) with (stderr_running r) in Hr.
    rewrite Hr. by apply IH.
Qed.

Lemma gather_other_reader (K : constants) (s : stream) (events : list arrival)
    (r1 r2 : readers) (st : state) :
  Forall (fun a => other_stream s a = true) events ->
  (forall s', s' <> s -> running r1 s' = running r2 s') ->
  gather K events r1 st = gather K events r2 st.
Proof.
  intros Hall. revert r1 r2 st.
  induction Hall as [|[s' read] events Ha _ IH]; intros r1 r2 st Hrun.
  - done.
  - assert (Hs : s' <> s) by (intros ->; by destruct s).
    cbn [gather]. rewrite (Hrun s' Hs).
    destruct (running r2 s'); [|by apply IH].
    unfold mbind, M_bind, attempt.
    destruct (read_stream K (prefix_of_stream s') read st) as [[[]|e] st'].
    + by apply IH.
    + apply IH. intros s'' Hs''. specialize (Hrun s'' Hs'').
      clear IH. by destruct s, s', s''.
    + done.
Qed.

(** X6: an empty read is the end of input of its stream: its reader
    leaves the loop, so whatever is listed for that stream afterwards is
    not relayed, while the other stream is relayed as if the first did
    not exist. *)
Theorem end_of_input_closes_stream (K : constants) (s : stream)
    (rest : list arrival) (r : readers) (st : state) :
  gather K ((s, Return []) :: rest) r st
  = gather K (List.filter (other_stream s) rest) r st.
Proof.
  cbn [gather]. destruct (running r s) eqn:Hr.
  - assert (Hstep : read_stream K (prefix_of_stream s) (Return []) st
                     = (Return false, st)) by done.
    unfold mbind, M_bind, attempt. rewrite Hstep.
    rewrite (gather_not_running K s _ (finish r s)) by by destruct s.
    apply (gather_other_reader K s).
    + apply Forall_forall. intros a Ha.
      apply list_elem_of_In, filter_In in Ha. by destruct Ha.
    + intros s' Hs'. by destruct s, s'.
  - by apply gather_not_running.
Qed.

(** ** Runs, one after the other *)

Lemma run_validation_missing (K : constants) (H : host) (st : state) :
  exists_on_disk H (script_path H) = false ->
  run_validation K H st
  = (Return tt,
     logged (opened K H st) [format (ERR_SCRIPT_NOT_FOUND K) (script_path H)]).
Proof. intros Hex. by rewrite run_validation_opened, Hex. Qed.

Lemma run_validation_environ (K : constants) (H : host) (st : state) :
  is_Some (objects st !! environ_loc) ->
  objects (run_validation K H st).2 !! environ_loc = objects st !! environ_loc.
Proof.
  intros Hl. destruct (exists_on_disk H (script_path H)) eqn:Hex.
  - rewrite (run_validation_spec K H st Hl Hex). simpl.
    apply lookup_insert_ne. by apply fresh_not_environ.
  - by rewrite (run_validation_missing K H st Hex).
Qed.

Lemma shown_app (calls1 calls2 : list str) :
  shown (calls1 ++ calls2) = shown calls1 ++ shown calls2.
Proof. unfold shown. apply flat_map_app. Qed.

(** X7: a run discards what [write_line] was called with before: its
    result is the same whatever the old entries were, and the calls it
    makes start with the eight opening calls.  Two of these have the
    empty text, for which the widget adds no line: what the widget shows
    starts with the lines of the six other texts. *)
Theorem previous_output_discarded (K : constants) (H : host) (st : state)
    (old : list str) :
  run_validation K H {| objects := objects st; log := old; spawned := spawned st |}
  = run_validation K H st
  /\ exists rest,
       log (run_validation K H st).2 = preamble K H ++ rest
       /\ shown (log (run_validation K H st).2)
          = shown [ SEPARATOR K; MSG_RUNNING_VALIDATION K; SEPARATOR K;
                    [0x1F50D] ++ lit " Environment Diagnostics:";
                    lit "   OS: " ++ sys_platform H;
                    lit "   Python: " ++ python_version H ]
            ++ shown rest.
Proof.
  split; [by rewrite !run_validation_opened|].
  assert (Hrest : exists rest,
            log (run_validation K H st).2 = preamble K H ++ rest).
  { rewrite run_validation_opened.
    destruct (exists_on_disk H (script_path H)); cbn [negb].
    - destruct (run_child_log K H (opened K H st)) as (lines & Hlog & _).
      unfold try_except, try_body, mbind, M_bind.
      change (log (opened K H st)) with (preamble K H) in Hlog.
      destruct (run_child K H (opened K H st)) as [[rc|e] st1]; cbn [snd] in Hlog.
      + rewrite show_status_writes. cbn [snd logged log]. rewrite Hlog.
        rewrite <- app_assoc. by eexists.
      + rewrite except_handlers_writes.
        destruct (exc_type e); cbn [snd logged log]; rewrite Hlog;
          try rewrite <- app_assoc; try by eexists.
        all: exists lines; done.
    - by eexists. }
  destruct Hrest as [rest Hrest]. exists rest. split; [done|].
  by rewrite Hrest, shown_app.
Qed.

(** The widget after the opening calls of a run on Linux: six lines. *)
Example opening_lines_shown :
  shown (preamble Sample.K Sample.linux)
  = [ lit "============"; lit "Running prerequisite validation...";
      lit "============";
      [0x1F50D] ++ lit " Environment Diagnostics:";
      lit "   OS: linux"; lit "   Python: 3.11.4" ].
Proof. by vm_compute. Qed.

Lemma child_run_spawns (K : constants) (H : host) (environ : gmap str str) :
  exists children,
    (child_run K H environ).2 = probes H ++ children
    /\ (length children <= 1)%nat
    /\ Forall (validation_child K H) children
    /\ (is_windows H = true ->
        Forall (fun sp => argv sp = bash_command K) children).
Proof.
  unfold child_run.
  destruct (command_result K H) as [command|e] eqn:Hc.
  - assert (Hcmd : (command = bash_command K
                    \/ command = [lit "stdbuf"; lit "-o0"; lit "-e0"]
                                 ++ bash_command K)
                   /\ (is_windows H = true -> command = bash_command K)).
    { unfold command_result in Hc. destruct (is_windows H).
      - injection Hc as <-. by split; [left|].
      - destruct (which_stdbuf H) as [rc|e].
        + injection Hc as <-. by split; [right|].
        + destruct (isinstance e TimeoutExpired || isinstance e FileNotFoundError);
            [|done].
          injection Hc as <-. by split; [left|]. }
    destruct Hcmd as [Hshape Hwin].
    set (sp := {| argv := command; cwd := Some (project_root H);
                  env_passed := Some (child_environment H environ) |}).
    exists [sp].
    assert (Hsp : validation_child K H sp).
    { split; [exact Hshape|]. split; [done|]. by eexists. }
    assert (Hrest : (length [sp] <= 1)%nat
                    /\ Forall (validation_child K H) [sp]
                    /\ (is_windows H = true ->
                        Forall (fun sp => argv sp = bash_command K) [sp])).
    { split; [done|]. split; [by constructor|].
      intros Hw. constructor; [by apply Hwin|constructor]. }
    destruct (create_subprocess_exec H sp); simpl; by split.
  - exists []. simpl. rewrite app_nil_r.
    split; [done|]. split; [lia|]. split; [constructor|]. intros _. constructor.
Qed.

(** X9: a run creates at most two processes and nothing else.  When the
    validation script is missing it creates none.  Otherwise it creates,
    off Windows, the probe [which stdbuf], and then at most one process
    for the validation script, which is bash on the script (on Windows
    never behind [stdbuf]), started in the project root with an
    environment of its own. *)
Theorem processes_of_a_run (K : constants) (H : host) (st : state) :
  is_Some (objects st !! environ_loc) ->
  exists children,
    spawned (run_validation K H st).2
    = spawned st
      ++ (if exists_on_disk H (script_path H)
          then (if is_windows H then [] else [probe]) ++ children
          else [])
    /\ (length children <= 1)%nat
    /\ Forall (validation_child K H) children
    /\ (is_windows H = true ->
        Forall (fun sp => argv sp = bash_command K) children).
Proof.
  intros Hl. destruct (exists_on_disk H (script_path H)) eqn:Hex.
  - rewrite (run_validation_spec K H st Hl Hex). simpl.
    destruct (child_run_spawns K H (dict_of st environ_loc))
      as (children & -> & Hrest).
    by exists children.
  - exists []. rewrite (run_validation_missing K H st Hex). simpl.
    rewrite app_nil_r. split; [done|]. split; [lia|].
    split; [constructor|]. intros _. constructor.
Qed.

Lemma processes_of_a_run_witness :
  exists children,
    spawned (run_validation Sample.K Sample.linux Sample.start).2
    = spawned Sample.start ++ [probe] ++ children
    /\ (length children <= 1)%nat
    /\ Forall (validation_child Sample.K Sample.linux) children
    /\ (is_windows Sample.linux = true ->
        Forall (fun sp => argv sp = bash_command Sample.K) children).
Proof.
  apply (processes_of_a_run Sample.K Sample.linux Sample.start).
  vm_compute. eexists. reflexivity.
Defined.

(** X10: off Windows, when the call of [which] raises a
    [PermissionError], the error is not swallowed with the timeout and
    the missing [which]: the run ends before the script is launched, the
    only process it created is the probe, and the log shows the opening
    lines and the permission message with the path of the script. *)
Theorem probe_failure_aborts (K : constants) (H : host) (st : state) (e : exn) :
  is_Some (objects st !! environ_loc) ->
  exists_on_disk H (script_path H) = true ->
  is_windows H = false ->
  which_stdbuf H = Raise e ->
  exc_type e = PermissionError ->
  (run_validation K H st).1 = Return tt
  /\ spawned (run_validation K H st).2 = spawned st ++ [probe]
  /\ log (run_validation K H st).2
     = preamble K H
       ++ [ ERR_PERMISSION_DENIED K;
            before (ERR_PERMISSION_HINT K) ++ script_path H
            ++ after (ERR_PERMISSION_HINT K) ].
Proof.
  intros Hl Hex Hw Hprobe Hclass.
  rewrite (run_validation_spec K H st Hl Hex).
  unfold child_run, command_result, probes. rewrite Hw, Hprobe.
  unfold isinstance. rewrite Hclass. cbn [issubclass exc_class_eqb orb fst snd].
  unfold closing. rewrite except_handlers_writes, Hclass. simpl.
  by rewrite ?app_nil_r.
Qed.

Lemma probe_failure_aborts_witness :
  (run_validation Sample.K SampleUI.linux_probe_denied Sample.start).1 = Return tt
  /\ spawned (run_validation Sample.K SampleUI.linux_probe_denied Sample.start).2
     = spawned Sample.start ++ [probe]
  /\ log (run_validation Sample.K SampleUI.linux_probe_denied Sample.start).2
     = preamble Sample.K SampleUI.linux_probe_denied
       ++ [ lit "Permission denied";
            lit "Try: chmod +x /repo/scripts/deploy/00_validate_prerequisites/00_validate_prerequisites.sh" ].
Proof.
  apply (probe_failure_aborts Sample.K SampleUI.linux_probe_denied Sample.start
           SampleUI.not_permitted); try reflexivity.
  vm_compute. eexists. reflexivity.
Defined.

(** ** The environment of the child, by platform *)

Ltac keys_differ :=
  let Heq := fresh "Heq" in
  intros Heq; vm_compute in Heq; discriminate Heq.

(** X11: off Windows the environment of the child is the mapping of
    [os.environ] with [PYTHONUNBUFFERED] set to [1], and nothing else is
    added or changed; PATH is not touched. *)
Theorem environment_off_windows (H : host) (st : state) :
  is_Some (objects st !! environ_loc) ->
  is_windows H = false ->
  exists l st',
    build_env H st = (Return l, st')
    /\ l <> environ_loc
    /\ dict_of st' l
       = <[lit "PYTHONUNBUFFERED" := lit "1"]> (dict_of st environ_loc).
Proof.
  intros Hl Hw. eexists _, _. split; [by apply build_env_spec|].
  split; [by apply fresh_not_environ|].
  rewrite dict_of_with_env. unfold child_environment. by rewrite Hw.
Qed.

Lemma environment_off_windows_witness :
  exists l st',
    build_env Sample.linux Sample.start = (Return l, st')
    /\ l <> environ_loc
    /\ dict_of st' l
       = <[lit "PYTHONUNBUFFERED" := lit "1"]> (dict_of Sample.start environ_loc).
Proof.
  apply (environment_off_windows Sample.linux Sample.start).
  - vm_compute. eexists. reflexivity.
  - reflexivity.
Defined.

(** X12: on Windows, when [os.environ] has no PATH, the environment of
    the child gets the two Python settings and nothing else: no PATH and
    no ORIGINAL_PATH are made up, and the list of directories is not
    gone through. *)
Theorem environment_windows_without_path (H : host) (st : state) :
  is_Some (objects st !! environ_loc) ->
  is_windows H = true ->
  dict_of st environ_loc !! lit "PATH" = None ->
  exists l st',
    build_env H st = (Return l, st')
    /\ l <> environ_loc
    /\ dict_of st' l
       = <[lit "PYTHONIOENCODING" := lit "utf-8"]>
           (<[lit "PYTHONUNBUFFERED" := lit "1"]> (dict_of st environ_loc))
    /\ dict_of st' l !! lit "PATH" = None.
Proof.
  intros Hl Hw Hp.
  assert (Hp2 : <[lit "PYTHONIOENCODING" := lit "utf-8"]>
                  (<[lit "PYTHONUNBUFFERED" := lit "1"]> (dict_of st environ_loc))
                !! lit "PATH" = None).
  { rewrite lookup_insert_ne by keys_differ.
    by rewrite lookup_insert_ne by keys_differ. }
  eexists _, _. split; [by apply build_env_spec|].
  split; [by apply fresh_not_environ|].
  rewrite dict_of_with_env. unfold child_environment. rewrite Hw. cbv zeta.
  by rewrite Hp2.
Qed.

Lemma environment_windows_without_path_witness :
  exists l st',
    build_env Sample.windows SampleUI.start_without_path = (Return l, st')
    /\ l <> environ_loc
    /\ dict_of st' l
       = <[lit "PYTHONIOENCODING" := lit "utf-8"]>
           (<[lit "PYTHONUNBUFFERED" := lit "1"]>
              (dict_of SampleUI.start_without_path environ_loc))
    /\ dict_of st' l !! lit "PATH" = None.
Proof.
  apply (environment_windows_without_path Sample.windows
           SampleUI.start_without_path).
  - vm_compute. eexists. reflexivity.
  - reflexivity.
  - reflexivity.
Defined.

(** X13: on Windows, when [os.environ] has a PATH, the environment of
    the child has the two Python settings, the old PATH under
    ORIGINAL_PATH, and a PATH that ends with the old PATH; every other
    variable is as in [os.environ]. *)
Theorem environment_windows_with_path (H : host) (st : state)
    (windows_path : str) :
  is_Some (objects st !! environ_loc) ->
  is_windows H = true ->
  dict_of st environ_loc !! lit "PATH" = Some windows_path ->
  exists l st' added,
    build_env H st = (Return l, st')
    /\ l <> environ_loc
    /\ dict_of st' l !! lit "PATH" = Some (added ++ windows_path)
    /\ dict_of st' l !! lit "ORIGINAL_PATH" = Some windows_path
    /\ dict_of st' l !! lit "PYTHONUNBUFFERED" = Some (lit "1")
    /\ dict_of st' l !! lit "PYTHONIOENCODING" = Some (lit "utf-8")
    /\ forall key,
         key <> lit "PATH" -> key <> lit "ORIGINAL_PATH" ->
         key <> lit "PYTHONUNBUFFERED" -> key <> lit "PYTHONIOENCODING" ->
         dict_of st' l !! key = dict_of st environ_loc !! key.
Proof.
  intros Hl Hw Hp.
  assert (Hp2 : <[lit "PYTHONIOENCODING" := lit "utf-8"]>
                  (<[lit "PYTHONUNBUFFERED" := lit "1"]> (dict_of st environ_loc))
                !! lit "PATH" = Some windows_path).
  { rewrite lookup_insert_ne by keys_differ.
    by rewrite lookup_insert_ne by keys_differ. }
  eexists _, _, _. split; [by apply build_env_spec|].
  split; [by apply fresh_not_environ|].
  rewrite dict_of_with_env. unfold child_environment. rewrite Hw. cbv zeta.
  rewrite Hp2.
  split; [by rewrite lookup_insert_eq|].
  split.
  { rewrite lookup_insert_ne by keys_differ. by rewrite lookup_insert_eq. }
  split.
  { do 3 rewrite lookup_insert_ne by keys_differ. by rewrite lookup_insert_eq. }
  split.
  { do 2 rewrite lookup_insert_ne by keys_differ. by rewrite lookup_insert_eq. }
  intros key H1 H2 H3 H4. by rewrite !lookup_insert_ne.
Qed.

Lemma environment_windows_with_path_witness :
  exists l st' added,
    build_env Sample.windows Sample.start = (Return l, st')
    /\ l <> environ_loc
    /\ dict_of st' l !! lit "PATH" = Some (added ++ lit "C:\Windows")
    /\ dict_of st' l !! lit "ORIGINAL_PATH" = Some (lit "C:\Windows")
    /\ dict_of st' l !! lit "PYTHONUNBUFFERED" = Some (lit "1")
    /\ dict_of st' l !! lit "PYTHONIOENCODING" = Some (lit "utf-8")
    /\ forall key,
         key <> lit "PATH" -> key <> lit "ORIGINAL_PATH" ->
         key <> lit "PYTHONUNBUFFERED" -> key <> lit "PYTHONIOENCODING" ->
         dict_of st' l !! key = dict_of Sample.start environ_loc !! key.
Proof.
  apply (environment_windows_with_path Sample.windows Sample.start
           (lit "C:\Windows")).
  - vm_compute. eexists. reflexivity.
  - reflexivity.
  - vm_compute. reflexivity.
Defined.

(** ** Sessions *)

Lemma button_invariant (K : constants) (U : ui_constants) (H : host)
    (button_id : option str) (st : state) :
  is_Some (objects st !! environ_loc) ->
  objects (on_button_pressed K U H button_id st).2 !! environ_loc
  = objects st !! environ_loc
  /\ (length (spawned (on_button_pressed K U H button_id st).2)
      <= length (spawned st) + (if is_validate button_id then 2 else 0))%nat.
Proof.
  intros Hl. unfold on_button_pressed, is_validate.
  destruct (bool_decide (button_id = Some (lit "validate_btn"))).
  - split; [by apply run_validation_environ|].
    destruct (exists_on_disk H (script_path H)) eqn:Hex.
    + rewrite (run_validation_spec K H st Hl Hex). simpl.
      destruct (child_run_spawns K H (dict_of st environ_loc))
        as (children & -> & Hn & _).
      rewrite !length_app. unfold probes.
      destruct (is_windows H); simpl; lia.
    + rewrite (run_validation_missing K H st Hex). simpl. lia.
  - destruct (bool_decide (button_id = Some (lit "clear_btn"))); simpl;
      split; try done; lia.
Qed.

Lemma presses_invariant (K : constants) (U : ui_constants) (H : host)
    (presses : list (option str)) (st : state) :
  is_Some (objects st !! environ_loc) ->
  objects (for_each presses (on_button_pressed K U H) st).2 !! environ_loc
  = objects st !! environ_loc
  /\ (length (spawned (for_each presses (on_button_pressed K U H) st).2)
      <= length (spawned st) + 2 * length (List.filter is_validate presses))%nat.
Proof.
  revert st. induction presses as [|b presses IH]; intros st Hl.
  - simpl. split; [done|lia].
  - destruct (button_invariant K U H b st Hl) as [Hobj Hn].
    cbn [for_each List.filter]. unfold mbind, M_bind.
    destruct (on_button_pressed K U H b st) as [[[]|e] st1]; simpl in Hobj, Hn.
    + assert (Hl1 : is_Some (objects st1 !! environ_loc)) by by rewrite Hobj.
      destruct (IH st1 Hl1) as [Hobj' Hn'].
      split; [by rewrite Hobj'|].
      destruct (is_validate b); simpl length in *; lia.
    + simpl. split; [done|]. destruct (is_validate b); simpl length; lia.
Qed.

(** X14: whatever buttons are pressed after the mounting, and in whatever
    order, [os.environ] is after the session what it was before it. *)
Theorem session_keeps_environ (K : constants) (U : ui_constants) (H : host)
    (presses : list (option str)) (st : state) :
  is_Some (objects st !! environ_loc) ->
  objects (session K U H presses st).2 !! environ_loc
  = objects st !! environ_loc.
Proof.
  intros Hl. unfold session.
  set (st0 := (on_mount U H st).2).
  assert (Hm : on_mount U H st = (Return tt, st0)) by done.
  rewrite (bind_run _ _ _ _ _ Hm).
  assert (Hobj : objects st0 = objects st) by done.
  destruct (presses_invariant K U H presses st0) as [Hp _].
  - by rewrite Hobj.
  - by rewrite Hp, Hobj.
Qed.

Lemma session_keeps_environ_witness :
  objects (session Sample.K SampleUI.U Sample.windows
             [Some (lit "validate_btn"); Some (lit "clear_btn"); None;
              Some (lit "validate_btn")] Sample.start).2 !! environ_loc
  = Some Sample.environ.
Proof.
  apply (session_keeps_environ Sample.K SampleUI.U Sample.windows _ Sample.start).
  vm_compute. eexists. reflexivity.
Defined.

(** X15: a session creates processes only when the validate button is
    pressed, at most two for each press: mounting, clearing and buttons
    with another id create none. *)
Theorem session_process_bound (K : constants) (U : ui_constants) (H : host)
    (presses : list (option str)) (st : state) :
  is_Some (objects st !! environ_loc) ->
  (length (spawned (session K U H presses st).2)
   <= length (spawned st) + 2 * length (List.filter is_validate presses))%nat.
Proof.
  intros Hl. unfold session.
  set (st0 := (on_mount U H st).2).
  assert (Hm : on_mount U H st = (Return tt, st0)) by done.
  rewrite (bind_run _ _ _ _ _ Hm).
  assert (Hobj : objects st0 = objects st) by done.
  assert (Hsp : spawned st0 = spawned st) by done.
  destruct (presses_invariant K U H presses st0) as [_ Hn].
  - by rewrite Hobj.
  - by rewrite Hsp in Hn.
Qed.

Lemma session_process_bound_witness :
  (length (spawned (session Sample.K SampleUI.U Sample.linux
                      [Some (lit "validate_btn"); Some (lit "clear_btn"); None;
                       Some (lit "validate_btn")] Sample.start).2)
   <= length (spawned Sample.start)
      + 2 * length (List.filter is_validate
                      [Some (lit "validate_btn"); Some (lit "clear_btn"); None;
                       Some (lit "validate_btn")]))%nat.
Proof.
  apply (session_process_bound Sample.K SampleUI.U Sample.linux _ Sample.start).
  vm_compute. eexists. reflexivity.
Defined.

Example session_on_linux :
  log (session Sample.K SampleUI.U Sample.linux
         [Some (lit "validate_btn"); Some (lit "clear_btn")] Sample.start).2
  = [lit "Output cleared"; []]
  /\ log (session Sample.K SampleUI.U Sample.linux [None] Sample.start).2
     = [ lit "old line"; lit "Welcome to the Azure Deployment TUI";
         lit "Project root: /repo/scripts/deploy/../.."; [];
         lit "Click the button to validate"; [] ]
  /\ length (spawned (session Sample.K SampleUI.U Sample.linux
                        [Some (lit "validate_btn"); Some (lit "clear_btn")]
                        Sample.start).2) = 2%nat.
Proof. repeat split; vm_compute; reflexivity. Qed.

(** X16: off Windows, when the call of [which] times out or [which]
    itself is not found, the run goes on without [stdbuf]: it launches
    exactly bash with its flags on the script, in the project root, with
    the mapping of [os.environ] plus [PYTHONUNBUFFERED=1] as
    environment. *)
Theorem probe_unavailable_falls_back (K : constants) (H : host) (st : state)
    (e : exn) :
  is_Some (objects st !! environ_loc) ->
  exists_on_disk H (script_path H) = true ->
  is_windows H = false ->
  which_stdbuf H = Raise e ->
  exc_type e = TimeoutExpired \/ exc_type e = FileNotFoundError ->
  spawned (run_validation K H st).2
  = spawned st
    ++ [ probe;
         {| argv := [lit "bash"] ++ BASH_FLAGS K ++ [VALIDATION_SCRIPT_PATH K];
            cwd := Some (parent H (parent H (script_dir H)));
            env_passed :=
              Some (<[lit "PYTHONUNBUFFERED" := lit "1"]>
                      (dict_of st environ_loc)) |} ].
Proof.
  intros Hl Hex Hw Hprobe Hclass.
  rewrite (run_validation_spec K H st Hl Hex).
  unfold child_run, command_result, probes, child_environment.
  rewrite Hw, Hprobe.
  assert (Hcaught : isinstance e TimeoutExpired || isinstance e FileNotFoundError
                    = true).
  { unfold isinstance. by destruct Hclass as [-> | ->]. }
  rewrite Hcaught.
  by destruct (create_subprocess_exec H _).
Qed.

Lemma probe_unavailable_falls_back_witness :
  spawned (run_validation Sample.K SampleUI.linux_without_which Sample.start).2
  = spawned Sample.start
    ++ [ probe;
         {| argv := [lit "bash"] ++ BASH_FLAGS Sample.K
                    ++ [VALIDATION_SCRIPT_PATH Sample.K];
            cwd := Some (lit "/repo/scripts/deploy/../..");
            env_passed :=
              Some (<[lit "PYTHONUNBUFFERED" := lit "1"]>
                      (dict_of Sample.start environ_loc)) |} ].
Proof.
  apply (probe_unavailable_falls_back Sample.K SampleUI.linux_without_which
           Sample.start Sample.not_found).
  - vm_compute. eexists. reflexivity.
  - reflexivity.
  - reflexivity.
  - reflexivity.
  - right. reflexivity.
Defined.

(** * The run, from the answers of the host *)

(** ** The relay up to an arrival *)

Lemma finish_not_running (r : readers) (s : stream) :
  running r s = false -> finish r s = r.
Proof. destruct r as [o e], s; simpl; by intros ->. Qed.

Lemma after_reads_cons (s : stream) (data : bytes) (pre : list arrival)
    (r : readers) :
  after_reads ((s, Return data) :: pre) r
  = after_reads pre (if negb (truthy data) then finish r s else r).
Proof. by destruct data. Qed.

(** The relay of arrivals that are not exceptions writes their lines and
    goes on with what follows, with the readers that are left. *)
Lemma gather_pre (K : constants) (pre rest : list arrival) (r : readers)
    (st : state) :
  Forall readable pre ->
  exists lines,
    Forall (relayed K pre) lines
    /\ gather K (pre ++ rest) r st
       = gather K rest (after_reads pre r) (logged st lines).
Proof.
  intros Hpre. revert r st.
  induction Hpre as [|[s read] pre [data Hread] _ IH]; intros r st.
  - exists []. split; [constructor|]. by rewrite logged_nil.
  - simpl in Hread. subst read.
    assert (Hskip : forall r' st',
              after_reads ((s, Return data) :: pre) r = after_reads pre r' ->
              exists lines,
                Forall (relayed K ((s, Return data) :: pre)) lines
                /\ gather K (pre ++ rest) r' st'
                   = gather K rest (after_reads ((s, Return data) :: pre) r)
                       (logged st' lines)).
    { intros r' st' ->. destruct (IH r' st') as (lines & Hall & Hg).
      exists lines. split; [|done].
      eapply Forall_impl; [exact Hall|]. intros x. apply relayed_cons. }
    rewrite after_reads_cons in Hskip. rewrite after_reads_cons.
    simpl app. cbn [gather]. destruct (running r s) eqn:Hrun.
    + destruct data as [|b data].
      * unfold mbind, M_bind, attempt, read_stream, lift. simpl.
        by apply Hskip.
      * destruct (decode_line_total K (b :: data) st) as [line Hline].
        pose proof (gather_line K s (b :: data) line (pre ++ rest) r st
                      ltac:(done) Hline) as Hg.
        cbn [gather] in Hg. rewrite Hrun in Hg. rewrite Hg. cbn [andb].
        destruct line as [|c line]; [by apply Hskip|]. cbn [truthy].
        destruct (IH r (logged st [prefix_of_stream s ++ c :: line]))
          as (lines & Hall & Hg').
        exists ((prefix_of_stream s ++ c :: line) :: lines). split.
        { constructor.
          - exists s, (b :: data), (c :: line), st.
            repeat split; try done. by left.
          - eapply Forall_impl; [exact Hall|]. intros x. apply relayed_cons. }
        by rewrite Hg', logged_app.
    + apply Hskip. destruct (negb (truthy data)); [|done].
      by rewrite finish_not_running.
Qed.

(** When no arrival is an exception, the relay returns. *)
Lemma gather_readable (K : constants) (events : list arrival) (r : readers)
    (st : state) :
  Forall readable events ->
  exists lines,
    Forall (relayed K events) lines
    /\ gather K events r st = (Return tt, logged st lines).
Proof.
  intros Hall. destruct (gather_pre K events [] r st Hall) as (lines & Hl & Hg).
  exists lines. split; [done|]. by rewrite app_nil_r in Hg.
Qed.



(** The relay of a line with malformed bytes between arrivals that are
    not exceptions. *)
Lemma relay_malformed (K : constants) (pre rest : list arrival) (s : stream)
    (data : bytes) (t : str) (r : readers) :
  Forall readable pre -> Forall readable rest ->
  running (after_reads pre r) s = true ->
  data <> [] ->
  (forall st, decode_line K data st = (Return t, st)) ->
  t <> [] ->
  exists lines1 lines2,
    Forall (relayed K pre) lines1 /\ Forall (relayed K rest) lines2
    /\ relay K (pre ++ (s, Return data) :: rest) r
       = (Return tt, lines1 ++ [prefix_of_stream s ++ t] ++ lines2).
Proof.
  intros Hpre Hrest Hrun Hne Hline Ht.
  destruct (gather_pre K pre ((s, Return data) :: rest) r empty_state Hpre)
    as (lines1 & Hl1 & Hg).
  set (st1 := logged empty_state lines1) in *.
  destruct (gather_readable K rest (after_reads pre r)
              (logged st1 [prefix_of_stream s ++ t]) Hrest)
    as (lines2 & Hl2 & Hg2).
  exists lines1, lines2. split; [done|]. split; [done|].
  unfold relay. rewrite Hg.
  rewrite (gather_line K s data t rest _ st1 Hne (Hline st1)), Hrun.
  destruct t as [|c t]; [done|]. cbn [andb truthy]. rewrite Hg2.
  unfold st1. by rewrite !logged_app.
Qed.


(** ** The run of a launched child *)

Lemma child_run_launched (K : constants) (H : host) (environ : gmap str str)
    (command : list str) (process : child) :
  command_result K H = Return command ->
  create_subprocess_exec H (the_child H environ command) = Return process ->
  child_run K H environ
  = (match (relay K (arrivals process) both_running).1 with
     | Return _ => wait process
     | Raise e => Raise e
     end,
     (relay K (arrivals process) both_running).2,
     probes H ++ [the_child H environ command]).
Proof.
  intros Hc Hp. unfold child_run, the_child in *. rewrite Hc. cbv zeta.
  by rewrite Hp.
Qed.


Lemma run_validation_log (K : constants) (H : host) (st : state) :
  is_Some (objects st !! environ_loc) ->
  exists_on_disk H (script_path H) = true ->
  (run_validation K H st).1
  = (closing K (script_path H) (child_run K H (dict_of st environ_loc)).1.1).1
  /\ log (run_validation K H st).2
     = preamble K H ++ (child_run K H (dict_of st environ_loc)).1.2
       ++ (closing K (script_path H)
             (child_run K H (dict_of st environ_loc)).1.1).2.
Proof.
  intros Hl Hex. by rewrite (run_validation_spec K H st Hl Hex).
Qed.

Lemma closing_status (K : constants) (path : str) (rc : Z) :
  closing K path (Return rc)
  = (Return tt,
     [ []; SEPARATOR K;
       match rc with
       | 0%Z => MSG_VALIDATION_SUCCESS K
       | 1%Z => MSG_VALIDATION_WARNINGS K
       | _ => before (MSG_VALIDATION_FAILED K) ++ str_of_int rc
              ++ after (MSG_VALIDATION_FAILED K)
       end;
       SEPARATOR K ]).
Proof. unfold closing. by rewrite !show_status_writes. Qed.




(** C6: a line whose bytes are malformed in the configured encoding does
    not make the decoding raise: the line is decoded with the configured
    error handler, which puts the replacement character for the invalid
    bytes.  In a run where such a line arrives on a stream that is still
    read, among arrivals that are not exceptions, the line is written
    where it arrived, behind the prefix of its stream, the arrivals after
    it are relayed, and the run ends as it does without such a line: it
    waits for the child, writes the status and returns. *)
Theorem malformed_line_replaced (K : constants) (data : bytes) (e : exn) :
  decode (SUBPROCESS_ENCODING K) strict data = Raise e ->
  exists line,
    (forall st, decode_line K data st = (Return line, st))
    /\ (exists t, decode (SUBPROCESS_ENCODING K) SUBPROCESS_ERROR_HANDLING data
                  = Return t /\ line = rstrip [LF; CR] t)
    /\ REPLACEMENT_CHARACTER ∈ line
    /\ forall (H : host) (st : state) (command : list str) (process : child)
         (pre rest : list arrival) (s : stream) (rc : Z),
         is_Some (objects st !! environ_loc) ->
         exists_on_disk H (script_path H) = true ->
         command_result K H = Return command ->
         create_subprocess_exec H
           (the_child H (dict_of st environ_loc) command) = Return process ->
         arrivals process = pre ++ (s, Return data) :: rest ->
         Forall readable pre -> Forall readable rest ->
         running (after_reads pre both_running) s = true ->
         wait process = Return rc ->
         (run_validation K H st).1 = Return tt
         /\ exists lines1 lines2,
              Forall (relayed K pre) lines1 /\ Forall (relayed K rest) lines2
              /\ log (run_validation K H st).2
                 = preamble K H ++ lines1 ++ [prefix_of_stream s ++ line]
                   ++ lines2
                   ++ [ []; SEPARATOR K;
                        match rc with
                        | 0%Z => MSG_VALIDATION_SUCCESS K
                        | 1%Z => MSG_VALIDATION_WARNINGS K
                        | _ => before (MSG_VALIDATION_FAILED K)
                               ++ str_of_int rc
                               ++ after (MSG_VALIDATION_FAILED K)
                        end;
                        SEPARATOR K ].
Proof.
  intros Hd.
  assert (Hne : data <> []) by (intros ->; discriminate Hd).
  destruct (decode_malformed _ _ _ Hd) as (_ & t & Ht & Hin).
  assert (Hline : forall st,
            decode_line K data st = (Return (rstrip [LF; CR] t), st)).
  { intros st. destruct (decode_line_malformed K data e st Hd)
      as (t' & Ht' & _ & Hl). rewrite Ht in Ht'. by injection Ht' as <-. }
  assert (Hrep : REPLACEMENT_CHARACTER ∈ rstrip [LF; CR] t).
  { apply rstrip_elem; [done|]. intros Hc.
    repeat (apply elem_of_cons in Hc as [Hc|Hc]; [discriminate Hc|]).
    by apply elem_of_nil in Hc. }
  exists (rstrip [LF; CR] t).
  split; [done|]. split; [by exists t|]. split; [done|].
  intros H st command process pre rest s rc Hl Hex Hc Hp Harr Hpre Hrest
    Hrun Hwait.
  destruct (run_validation_log K H st Hl Hex) as [-> ->].
  rewrite (child_run_launched K H _ command process Hc Hp), Harr.
  destruct (relay_malformed K pre rest s data (rstrip [LF; CR] t) both_running
              Hpre Hrest Hrun Hne Hline)
    as (lines1 & lines2 & Hl1 & Hl2 & ->).
  { intros Hnil. rewrite Hnil in Hrep. by apply elem_of_nil in Hrep. }
  cbn [fst snd]. rewrite Hwait, closing_status.
  split; [done|]. exists lines1, lines2. split; [done|]. split; [done|].
  by rewrite <- !app_assoc.
Qed.

Lemma malformed_line_replaced_witness :
  exists line,
    (forall st,
       decode_line Sample.K (Utf8.ascii_bytes "az: " ++ [xff; x0d; x0a]) st
       = (Return line, st))
    /\ (exists t, decode Utf8.utf8 SUBPROCESS_ERROR_HANDLING
                    (Utf8.ascii_bytes "az: " ++ [xff; x0d; x0a]) = Return t
                  /\ line = rstrip [LF; CR] t)
    /\ REPLACEMENT_CHARACTER ∈ line
    /\ (run_validation Sample.K SampleRelay.linux_malformed Sample.start).1
       = Return tt
    /\ exists lines1 lines2,
         Forall (relayed Sample.K
                   [ (Stdout, Return (Utf8.ascii_bytes "checking az" ++ [x0a]));
                     (Stdout, Return []) ]) lines1
         /\ Forall (relayed Sample.K
                      [ (Stderr, Return (Utf8.ascii_bytes "done" ++ [x0a]));
                        (Stderr, Return []) ]) lines2
         /\ log (run_validation Sample.K SampleRelay.linux_malformed
                   Sample.start).2
            = preamble Sample.K SampleRelay.linux_malformed ++ lines1
              ++ [prefix_of_stream Stderr ++ line] ++ lines2
              ++ [ []; lit "============";
                   lit "Validation completed with warnings";
                   lit "============" ].
Proof.
  destruct (malformed_line_replaced Sample.K
              (Utf8.ascii_bytes "az: " ++ [xff; x0d; x0a])
              (decode_error Utf8.utf8
                 (Utf8.ascii_bytes "az: " ++ [xff; x0d; x0a]))
              eq_refl)
    as (line & Hline & Ht & Hrep & Hrun).
  exists line. split; [exact Hline|]. split; [exact Ht|].
  split; [exact Hrep|].
  apply (Hrun SampleRelay.linux_malformed Sample.start
           ([lit "stdbuf"; lit "-o0"; lit "-e0"] ++ bash_command Sample.K)
           SampleRelay.child3
           [ (Stdout, Return (Utf8.ascii_bytes "checking az" ++ [x0a]));
             (Stdout, Return []) ]
           [ (Stderr, Return (Utf8.ascii_bytes "done" ++ [x0a]));
             (Stderr, Return []) ]
           Stderr 1%Z).
  - vm_compute. eexists. reflexivity.
  - reflexivity.
  - reflexivity.
  - reflexivity.
  - reflexivity.
  - repeat (apply List.Forall_cons; [eexists; reflexivity|]).
    apply List.Forall_nil.
  - repeat (apply List.Forall_cons; [eexists; reflexivity|]).
    apply List.Forall_nil.
  - reflexivity.
  - reflexivity.
Defined.



(** ** The nodejs directory in PATH *)












(** What a failed read leaves behind is the reader of the other stream,
    if it still runs, with the arrivals that follow. *)
Lemma left_behind_pre (pre rest : list arrival) (r : readers) :
  Forall readable pre ->
  left_behind (pre ++ rest) r = left_behind rest (after_reads pre r).
Proof.
  intros Hpre. revert r.
  induction Hpre as [|[s read] pre [data Hread] _ IH]; intros r; [done|].
  simpl in Hread. subst read. simpl app. cbn [left_behind after_reads].
  destruct (running r s) eqn:Hrun; destruct data as [|b data]; try apply IH.
  by rewrite finish_not_running.
Qed.

Lemma left_behind_at_read (pre rest : list arrival) (s : stream) (e : exn)
    (r : readers) :
  Forall readable pre ->
  running (after_reads pre r) s = true ->
  left_behind (pre ++ (s, Raise e) :: rest) r
  = Some (finish (after_reads pre r) s, rest).
Proof.
  intros Hpre Hrun. rewrite left_behind_pre by done.
  cbn [left_behind]. by rewrite Hrun.
Qed.

(** The late lines of the sample run with a failed read: the line that
    stdout gives after the failure is written behind the report. *)
Example late_line_after_report :
  readers_left Sample.K Sample.linux_read_error Sample.environ
  = Some ({| stdout_running := true; stderr_running := false |},
          [(Stdout, Return (Utf8.ascii_bytes "done" ++ [x0a]))])
  /\ log (drain Sample.K
            [(Stdout, Return (Utf8.ascii_bytes "done" ++ [x0a]))]
            {| stdout_running := true; stderr_running := false |}
            (run_validation Sample.K Sample.linux_read_error Sample.start).2)
     = log (run_validation Sample.K Sample.linux_read_error Sample.start).2
       ++ [lit "done"].
Proof. split; by vm_compute. Qed.



